(** * Quiz board backend: the routes of [backend/routes/quiz.js]

    The repository holds two revisions of the router.  Revision 1 keeps
    participants as records and authorises [start] by [creatorName];
    revision 2 keeps participants as plain user ids and authorises by
    [createdBy].  Handlers that are textually the same in both revisions
    ([/submit-answer], [/submit], [/leaderboard/:code], [/list]) are
    embedded once.

    Conventions of the embedding:
    - the Mongo collection is a list of documents in insertion order;
      [Quiz.findOne] yields the first document with the given code together
      with its position, which plays the part of [_id];
    - a document has the fields that the routes read and write: beside
      [code], [title], [category], [status], [questions], [participants]
      and [scores] also [createdBy], [creatorName], [startTime], [answers]
      and the [timeLimit] of a question, and a participant is a record or
      an id.  The schema file of the repository declares fewer paths
      ([creator] instead of [createdBy], participants as strings, no
      [creatorName], [startTime], [answers] or [timeLimit]); what a handler
      answers for a document it has read does not depend on the schema,
      whether the collection keeps a field that a handler writes does.
      Theorems about an arbitrary collection hold of whatever documents it
      holds;
    - a request carries typed fields, and a field that may be missing is an
      [option], [None] being the JavaScript [undefined];
    - a handler is a function from the collection (and the request fields)
      to the new collection and the HTTP response; the [catch] branches
      (status 500), entered when an operation of the handler throws (a
      [questions] field that is no array, a value that the collection
      refuses, a failing [save]), are outside the model;
    - [new Date()] is passed in as [now]; [Math.random()] is passed in as the
      stream of its results. *)

From Stdlib Require Import ZArith Ascii Lia.
From Stdlib Require Import Sorting.Sorted Sorting.Permutation.
From stdpp Require Import base list strings.

Open Scope Z_scope.
Set Warnings "-register-all".

(** ** JavaScript values and operators used by the routes *)

(** [!s] for a field that is a string or missing. *)
Definition falsy (s : option string) : bool :=
  match s with
  | None => true
  | Some s => bool_decide (s = "")
  end.

(** [n || d] on numbers: [0] and [undefined] fall through to [d]. *)
Definition num_or (n : option Z) (d : Z) : Z :=
  match n with
  | Some n => if n =? 0 then d else n
  | None => d
  end.

(** [a || []] on arrays: every array is truthy. *)
Definition arr_or {A} (a : option (list A)) : list A :=
  match a with
  | Some l => l
  | None => []
  end.

(** [a[i]] for a numeric [i]. *)
Definition js_index {A} (a : list A) (i : Z) : option A :=
  if i <? 0 then None else a !! Z.to_nat i.

(** The body handed to [res.json]. *)
Inductive json : Type :=
  | JNull
  | JBool (b : bool)
  | JNum (n : Z)
  | JStr (s : string)
  | JArr (items : list json)
  | JObj (fields : list (string * json)).

(** An object literal; a property whose value is [undefined] is dropped
    when the body is serialised. *)
Definition obj (fields : list (string * option json)) : json :=
  JObj (omap (λ f, match f.2 with Some v => Some (f.1, v) | None => None end) fields).

Definition jstr (s : option string) : option json := JStr <$> s.
Definition jnum (n : option Z) : option json := JNum <$> n.
Definition jstrs (l : list string) : json := JArr (JStr <$> l).

(** [j.k] *)
Definition jfield (k : string) (j : json) : option json :=
  match j with
  | JObj fields => snd <$> List.find (λ f, String.eqb k f.1) fields
  | _ => None
  end.

(** Does the property name [k] occur anywhere inside [j]? *)
Fixpoint mentions (k : string) (j : json) : bool :=
  match j with
  | JArr items => existsb (mentions k) items
  | JObj fields => existsb (λ f, String.eqb k f.1 || mentions k f.2) fields
  | _ => false
  end.

(** ** Documents *)

Module Question.
Record t := mk {
  text : option string;
  type : option string;
  options : option (list string);
  correctAnswer : option string;
  timeLimit : option Z
}.
End Question.

(** A participant is a record in revision 1 and a bare user id in
    revision 2. *)
Module Participant.
Inductive t :=
  | Rec (userId username : string) (score : Z)
  | Id (userId : string).

(** [p.userId]; a string has no such property. *)
Definition userId (p : t) : option string :=
  match p with
  | Rec u _ _ => Some u
  | Id _ => None
  end.

#[global] Instance eq_dec : EqDecision t.
Proof. solve_decision. Defined.
End Participant.

Module Score.
Record t := mk {
  userId : option string;
  score : Z;
  submittedAt : Z
}.
End Score.

Module Answer.
Record t := mk {
  userId : option string;
  questionIndex : Z;
  answer : option string;
  isCorrect : bool;
  timestamp : Z
}.
End Answer.

Module Quiz.
Record t := mk {
  code : string;
  title : string;
  category : string;
  questions : list Question.t;
  createdBy : option string;
  creatorName : option string;
  status : string;
  participants : list Participant.t;
  scores : list Score.t;
  answers : option (list Answer.t);
  startTime : option Z
}.

Definition set_status (v : string) (q : t) : t :=
  mk (code q) (title q) (category q) (questions q) (createdBy q) (creatorName q)
     v (participants q) (scores q) (answers q) (startTime q).
Definition set_startTime (v : Z) (q : t) : t :=
  mk (code q) (title q) (category q) (questions q) (createdBy q) (creatorName q)
     (status q) (participants q) (scores q) (answers q) (Some v).
Definition set_participants (v : list Participant.t) (q : t) : t :=
  mk (code q) (title q) (category q) (questions q) (createdBy q) (creatorName q)
     (status q) v (scores q) (answers q) (startTime q).
Definition set_scores (v : list Score.t) (q : t) : t :=
  mk (code q) (title q) (category q) (questions q) (createdBy q) (creatorName q)
     (status q) (participants q) v (answers q) (startTime q).
Definition set_answers (v : list Answer.t) (q : t) : t :=
  mk (code q) (title q) (category q) (questions q) (createdBy q) (creatorName q)
     (status q) (participants q) (scores q) (Some v) (startTime q).

(** The collection. *)
Abbreviation store := (list t).

(** [Quiz.findOne({ code })] *)
Definition findOne (c : string) (s : store) : option (nat * t) :=
  list_find (λ q, code q = c) s.

(** [quiz.save()] of the document read at position [i]. *)
Definition save (i : nat) (q : t) (s : store) : store := <[i := q]> s.

(** [new Quiz(...).save()] *)
Definition insert (q : t) (s : store) : store := s ++ [q].

(** [Quiz.findOneAndUpdate({ code }, update, { new: true })]: the first
    document with the code is updated in place and returned. *)
Definition findOneAndUpdate (c : string) (update : t → t) (s : store)
    : option (store * t) :=
  match findOne c s with
  | Some (i, q) => Some (<[i := update q]> s, update q)
  | None => None
  end.
End Quiz.

Record Response := respond {
  res_status : Z;
  res_body : json
}.

Definition error (st : Z) (msg : string) : Response :=
  respond st (obj [("error", Some (JStr msg))]).

Definition error_s (st : Z) (msg : string) : Response :=
  respond st (obj [("success", Some (JBool false)); ("error", Some (JStr msg))]).

(** [s] when the field is truthy (present and not the empty string). *)
Definition truthy (s : option string) : option string :=
  match s with
  | Some s => if bool_decide (s = "") then None else Some s
  | None => None
  end.

(** ** Join codes *)

(** A double in the range of [Math.random()], that is in [0, 1): the value
    [mant * 2^-expo].  Every double of that range has this shape with a
    mantissa of at most 53 bits and an exponent of at most 1074. *)
Module Double.
Record t := mk { mant : Z; expo : Z }.

Definition wf (d : t) : Prop :=
  0 <= mant d < 2 ^ 53 ∧ 0 <= expo d <= 1074 ∧ mant d < 2 ^ expo d.

(** Rounding of a natural number to 53 significant bits, to nearest and
    ties to even, as the double product does. *)
Definition round53 (n : Z) : Z :=
  let s := Z.log2 n - 52 in
  if s <=? 0 then n
  else
    let q := n / 2 ^ s in
    let r := n mod 2 ^ s in
    let h := 2 ^ (s - 1) in
    (if (r <? h) || ((r =? h) && Z.even q) then q else q + 1) * 2 ^ s.

(** [Math.floor(d * k)] for a natural number [k]. *)
Definition floor_mul (d : t) (k : Z) : Z :=
  round53 (mant d * k) / 2 ^ expo d.
End Double.

Definition characters : string := "ABCDEFGHIJKLMNOPQRSTUVWXYZ0123456789".

(** [s.charAt(i)]: the empty string when [i] is out of range. *)
Definition charAt (s : string) (i : Z) : string :=
  if i <? 0 then ""
  else match String.get (Z.to_nat i) s with
       | Some c => String c ""
       | None => ""
       end.

(** [generateUniqueCode()]; [random i] is the result of the [i]-th call of
    [Math.random()]. *)
Definition generateUniqueCode (random : nat → Double.t) : string :=
  fold_left
    (λ code i,
       code +:+ charAt characters
                  (Double.floor_mul (random i) (Z.of_nat (String.length characters))))
    (seq 0 6) "".

(** [s.substring(from, to)] for [from <= to]. *)
Definition substring (from to : nat) (s : string) : string :=
  String.substring from (to - from) s.

Definition upper (c : ascii) : ascii :=
  let n := nat_of_ascii c in
  if ((97 <=? n) && (n <=? 122))%nat then ascii_of_nat (n - 32) else c.

(** [s.toUpperCase()] on ASCII text. *)
Fixpoint toUpperCase (s : string) : string :=
  match s with
  | EmptyString => EmptyString
  | String c s => String (upper c) (toUpperCase s)
  end.

(** The code of revision 2, [Math.random().toString(36).substring(2, 8)
    .toUpperCase()]; [random36] is the text [Math.random().toString(36)],
    for instance ["0.i"] when the draw is one half. *)
Definition randomCode (random36 : string) : string :=
  toUpperCase (substring 2 8 random36).

(** Membership in the alphabet A-Z, 0-9. *)
Definition alnum_upper (c : ascii) : bool :=
  let n := nat_of_ascii c in
  ((65 <=? n) && (n <=? 90) || (48 <=? n) && (n <=? 57))%nat.

(** ** Views of a document *)

(** The sanitised question of [GET /:code] and [POST /join], revision 1. *)
Definition sanitize_defaults (q : Question.t) : json :=
  obj [("text", jstr (Question.text q));
       ("type", jstr (Question.type q));
       ("options", Some (jstrs (arr_or (Question.options q))));
       ("timeLimit", Some (JNum (num_or (Question.timeLimit q) 30)))].

(** The sanitised question of [POST /start], revision 1. *)
Definition sanitize_timeLimit (q : Question.t) : json :=
  obj [("text", jstr (Question.text q));
       ("type", jstr (Question.type q));
       ("options", jstrs <$> Question.options q);
       ("timeLimit", Some (JNum (num_or (Question.timeLimit q) 30)))].

(** The sanitised question of revision 2. *)
Definition sanitize_plain (q : Question.t) : json :=
  obj [("text", jstr (Question.text q));
       ("type", jstr (Question.type q));
       ("options", jstrs <$> Question.options q);
       ("timeLimit", jnum (Question.timeLimit q))].

Definition question_json (q : Question.t) : json :=
  obj [("text", jstr (Question.text q));
       ("type", jstr (Question.type q));
       ("options", jstrs <$> Question.options q);
       ("correctAnswer", jstr (Question.correctAnswer q));
       ("timeLimit", jnum (Question.timeLimit q))].

Definition participant_json (p : Participant.t) : json :=
  match p with
  | Participant.Rec u n sc =>
      obj [("userId", Some (JStr u)); ("username", Some (JStr n)); ("score", Some (JNum sc))]
  | Participant.Id u => JStr u
  end.

Definition score_fields (s : Score.t) : list (string * option json) :=
  [("userId", jstr (Score.userId s));
   ("score", Some (JNum (Score.score s)));
   ("submittedAt", Some (JNum (Score.submittedAt s)))].

Definition answer_json (a : Answer.t) : json :=
  obj [("userId", jstr (Answer.userId a));
       ("questionIndex", Some (JNum (Answer.questionIndex a)));
       ("answer", jstr (Answer.answer a));
       ("isCorrect", Some (JBool (Answer.isCorrect a)));
       ("timestamp", Some (JNum (Answer.timestamp a)))].

(** The whole document, as [res.json(quiz)] sends it. *)
Definition quiz_json (q : Quiz.t) : json :=
  obj [("code", Some (JStr (Quiz.code q)));
       ("title", Some (JStr (Quiz.title q)));
       ("category", Some (JStr (Quiz.category q)));
       ("questions", Some (JArr (question_json <$> Quiz.questions q)));
       ("createdBy", jstr (Quiz.createdBy q));
       ("creatorName", jstr (Quiz.creatorName q));
       ("status", Some (JStr (Quiz.status q)));
       ("participants", Some (JArr (participant_json <$> Quiz.participants q)));
       ("scores", Some (JArr (obj ∘ score_fields <$> Quiz.scores q)));
       ("answers", JArr ∘ fmap answer_json <$> Quiz.answers q);
       ("startTime", jnum (Quiz.startTime q))].

(** The question documents that [create] builds from the request. *)
Definition new_question (q : Question.t) : Question.t :=
  Question.mk (Question.text q) (Question.type q)
    (Some (arr_or (Question.options q)))
    (Question.correctAnswer q)
    (Some (num_or (Question.timeLimit q) 30)).

(** ** Revision 1 of the router *)

Module R1.

(** [POST /create] *)
Definition create (random : nat → Double.t) (s : Quiz.store)
    (title category : option string) (questions : option (list Question.t))
    (createdBy creatorName : option string) : Quiz.store * Response :=
  match truthy title, truthy category, questions, truthy createdBy, truthy creatorName with
  | Some title, Some category, Some questions, Some createdBy, Some creatorName =>
      let code := generateUniqueCode random in
      let quiz :=
        Quiz.mk code title category (new_question <$> questions)
          (Some createdBy) (Some creatorName) "pending" [] [] None None in
      (Quiz.insert quiz s,
       respond 201 (obj [("success", Some (JBool true));
                         ("code", Some (JStr (Quiz.code quiz)));
                         ("message", Some (JStr "Quiz created successfully"))]))
  | _, _, _, _, _ => (s, error 400 "Missing required fields")
  end.

(** [GET /:code] *)
Definition get (s : Quiz.store) (code : string) (userId : option string)
    : Quiz.store * Response :=
  match Quiz.findOne code s with
  | None => (s, error 404 "Quiz not found")
  | Some (_, quiz) =>
      let sanitizedQuestions := sanitize_defaults <$> Quiz.questions quiz in
      let participantCount := Z.of_nat (length (Quiz.participants quiz)) in
      (s, respond 200
            (obj [("code", Some (JStr (Quiz.code quiz)));
                  ("title", Some (JStr (Quiz.title quiz)));
                  ("category", Some (JStr (Quiz.category quiz)));
                  ("questions", Some (JArr sanitizedQuestions));
                  ("status", Some (JStr (Quiz.status quiz)));
                  ("participantCount", Some (JNum participantCount));
                  ("creatorName", jstr (Quiz.creatorName quiz));
                  ("createdBy", jstr (Quiz.createdBy quiz));
                  ("isCreator", Some (JBool (bool_decide (Quiz.createdBy quiz = userId))))]))
  end.

(** [GET /:code/admin] *)
Definition admin (s : Quiz.store) (code : string) (createdBy : option string)
    : Quiz.store * Response :=
  match Quiz.findOne code s with
  | None => (s, error 404 "Quiz not found")
  | Some (_, quiz) =>
      if bool_decide (Quiz.createdBy quiz ≠ createdBy)
      then (s, error 403 "Unauthorized access")
      else (s, respond 200 (quiz_json quiz))
  end.

(** The [quiz] object of the two success responses of [POST /join]. *)
Definition joined (message : string) (quiz : Quiz.t) : Response :=
  let sanitizedQuestions := sanitize_defaults <$> Quiz.questions quiz in
  respond 200
    (obj [("success", Some (JBool true));
          ("message", Some (JStr message));
          ("quiz", Some (obj
             [("title", Some (JStr (Quiz.title quiz)));
              ("category", Some (JStr (Quiz.category quiz)));
              ("questions", Some (JArr sanitizedQuestions));
              ("participants", Some (JArr (participant_json <$> Quiz.participants quiz)));
              ("participantCount", Some (JNum (Z.of_nat (length (Quiz.participants quiz)))));
              ("status", Some (JStr (Quiz.status quiz)));
              ("creatorName", jstr (Quiz.creatorName quiz));
              ("createdBy", jstr (Quiz.createdBy quiz));
              ("code", Some (JStr (Quiz.code quiz)))]))]).

(** [POST /join] *)
Definition join (s : Quiz.store) (code userId username : option string)
    : Quiz.store * Response :=
  match truthy code, truthy userId, truthy username with
  | Some code, Some userId, Some username =>
      match Quiz.findOne code s with
      | None => (s, error 404 "Quiz not found")
      | Some (_, quiz) =>
          if bool_decide (Quiz.status quiz ≠ "pending")
          then (s, error 400 "Quiz has already started")
          else
            let existingParticipant :=
              List.find (λ p, bool_decide (Participant.userId p = Some userId))
                (Quiz.participants quiz) in
            match existingParticipant with
            | None =>
                let newParticipant := Participant.Rec userId username 0 in
                let push q :=
                  Quiz.set_participants (Quiz.participants q ++ [newParticipant]) q in
                match Quiz.findOneAndUpdate code push s with
                | None => (s, error 404 "Failed to update quiz")
                | Some (s', updatedQuiz) =>
                    (s', joined "Joined quiz successfully" updatedQuiz)
                end
            | Some _ => (s, joined "Already joined quiz" quiz)
            end
      end
  | _, _, _ => (s, error 400 "Missing required fields")
  end.

(** [POST /start] *)
Definition start (now : Z) (s : Quiz.store) (code creatorName : option string)
    : Quiz.store * Response :=
  match truthy code, truthy creatorName with
  | Some code, Some creatorName =>
      match Quiz.findOne code s with
      | None => (s, error_s 404 "Quiz not found")
      | Some (i, quiz) =>
          if bool_decide (Quiz.creatorName quiz ≠ Some creatorName)
          then (s, error_s 403 "Only quiz creator can start the quiz")
          else if bool_decide (Quiz.status quiz = "active")
          then (s, error_s 400 "Quiz is already started")
          else if Z.of_nat (length (Quiz.participants quiz)) <? 1
          then (s, error_s 400 "Cannot start quiz with no participants")
          else
            let quiz := Quiz.set_startTime now (Quiz.set_status "active" quiz) in
            let sanitizedQuestions := sanitize_timeLimit <$> Quiz.questions quiz in
            (Quiz.save i quiz s,
             respond 200 (obj [("success", Some (JBool true));
                               ("message", Some (JStr "Quiz started successfully"));
                               ("questions", Some (JArr sanitizedQuestions))]))
      end
  | _, _ => (s, error_s 400 "Missing required fields")
  end.

End R1.

(** ** Revision 2 of the router *)

Module R2.

(** The loop of [POST /create] over the questions of the request: the
    response of the first question that is rejected, if any. *)
Fixpoint validate (questions : list Question.t) : option Response :=
  match questions with
  | [] => None
  | question :: rest =>
      if falsy (Question.text question) || falsy (Question.type question)
         || falsy (Question.correctAnswer question)
      then Some (error 400 "Invalid question format")
      else if bool_decide (Question.type question = Some "multiple")
              && match Question.options question with
                 | None => true
                 | Some options => Z.of_nat (length options) <? 2
                 end
      then Some (error 400 "Multiple choice questions must have at least 2 options")
      else validate rest
  end.

(** [POST /create]; the position of the new document stands for its [_id]. *)
Definition create (random36 : string) (s : Quiz.store)
    (title category : option string) (questions : option (list Question.t))
    (userId : option string) : Quiz.store * Response :=
  match truthy title, truthy category, questions with
  | Some title, Some category, Some questions =>
      if bool_decide (length questions = 0%nat)
      then (s, error 400 "Missing required fields")
      else
        match validate questions with
        | Some rejected => (s, rejected)
        | None =>
            let code := randomCode random36 in
            let quiz :=
              Quiz.mk code title category (new_question <$> questions)
                userId None "waiting" [] [] None None in
            (Quiz.insert quiz s,
             respond 201 (obj [("message", Some (JStr "Quiz created successfully"));
                               ("code", Some (JStr (Quiz.code quiz)));
                               ("quizId", Some (JNum (Z.of_nat (length s))))]))
        end
  | _, _, _ => (s, error 400 "Missing required fields")
  end.

(** [GET /:code] *)
Definition get (s : Quiz.store) (code : string) : Quiz.store * Response :=
  match Quiz.findOne code s with
  | None => (s, error 404 "Quiz not found")
  | Some (_, quiz) =>
      let sanitizedQuestions := sanitize_plain <$> Quiz.questions quiz in
      (s, respond 200
            (obj [("code", Some (JStr (Quiz.code quiz)));
                  ("title", Some (JStr (Quiz.title quiz)));
                  ("category", Some (JStr (Quiz.category quiz)));
                  ("questions", Some (JArr sanitizedQuestions));
                  ("status", Some (JStr (Quiz.status quiz)));
                  ("participantCount",
                   Some (JNum (Z.of_nat (length (Quiz.participants quiz)))))]))
  end.

(** [GET /:code/admin] *)
Definition admin (s : Quiz.store) (code : string) (userId : option string)
    : Quiz.store * Response :=
  match Quiz.findOne code s with
  | None => (s, error 404 "Quiz not found")
  | Some (_, quiz) =>
      if bool_decide (Quiz.createdBy quiz ≠ userId)
      then (s, error 403 "Unauthorized access")
      else (s, respond 200 (quiz_json quiz))
  end.

(** The success response of [POST /join]. *)
Definition joined (quiz : Quiz.t) : Response :=
  let sanitizedQuestions := sanitize_plain <$> Quiz.questions quiz in
  respond 200
    (obj [("message", Some (JStr "Joined quiz successfully"));
          ("quiz", Some (obj
             [("title", Some (JStr (Quiz.title quiz)));
              ("category", Some (JStr (Quiz.category quiz)));
              ("questions", Some (JArr sanitizedQuestions));
              ("participantCount",
               Some (JNum (Z.of_nat (length (Quiz.participants quiz)))))]))]).

(** [POST /join]; the user id of the request is a string, as the
    [participants] array requires. *)
Definition join (s : Quiz.store) (code userId : string) : Quiz.store * Response :=
  match Quiz.findOne code s with
  | None => (s, error 404 "Quiz not found")
  | Some (i, quiz) =>
      if bool_decide (Quiz.status quiz ≠ "waiting")
      then (s, error 400 "Quiz has already started")
      else if bool_decide (Participant.Id userId ∈ Quiz.participants quiz)
      then (s, joined quiz)
      else
        let quiz :=
          Quiz.set_participants (Quiz.participants quiz ++ [Participant.Id userId]) quiz in
        (Quiz.save i quiz s, joined quiz)
  end.

(** [POST /start] *)
Definition start (now : Z) (s : Quiz.store) (code : string) (userId : option string)
    : Quiz.store * Response :=
  match Quiz.findOne code s with
  | None => (s, error 404 "Quiz not found")
  | Some (i, quiz) =>
      if bool_decide (Quiz.createdBy quiz ≠ userId)
      then (s, error 403 "Only quiz creator can start the quiz")
      else if bool_decide (length (Quiz.participants quiz) = 0%nat)
      then (s, error 400 "Cannot start quiz with no participants")
      else
        let quiz := Quiz.set_startTime now (Quiz.set_status "active" quiz) in
        let sanitizedQuestions := sanitize_plain <$> Quiz.questions quiz in
        (Quiz.save i quiz s,
         respond 200 (obj [("success", Some (JBool true));
                           ("message", Some (JStr "Quiz started successfully"));
                           ("questions", Some (JArr sanitizedQuestions))]))
  end.

End R2.

(** ** Handlers common to both revisions *)

(** [POST /submit-answer] *)
Definition submitAnswer (now : Z) (s : Quiz.store) (code : string)
    (userId : option string) (questionIndex : Z) (answer : option string)
    : Quiz.store * Response :=
  match Quiz.findOne code s with
  | None => (s, error 404 "Quiz not found")
  | Some (i, quiz) =>
      if bool_decide (Quiz.status quiz ≠ "active")
      then (s, error 400 "Quiz is not active")
      else
        match js_index (Quiz.questions quiz) questionIndex with
        | None => (s, error 400 "Invalid question index")
        | Some question =>
            let isCorrect := bool_decide (Question.correctAnswer question = answer) in
            let entry := Answer.mk userId questionIndex answer isCorrect now in
            let quiz := Quiz.set_answers (arr_or (Quiz.answers quiz) ++ [entry]) quiz in
            (Quiz.save i quiz s,
             respond 200 (obj [("success", Some (JBool true));
                               ("correct", Some (JBool isCorrect));
                               ("correctAnswer", jstr (Question.correctAnswer question))]))
        end
  end.

(** [GET /list] *)
Definition listQuizzes (s : Quiz.store) : Quiz.store * Response :=
  let summary quiz :=
    obj [("code", Some (JStr (Quiz.code quiz)));
         ("title", Some (JStr (Quiz.title quiz)));
         ("category", Some (JStr (Quiz.category quiz)));
         ("status", Some (JStr (Quiz.status quiz)));
         ("createdBy", jstr (Quiz.createdBy quiz));
         ("participantCount", Some (JNum (Z.of_nat (length (Quiz.participants quiz)))))] in
  (s, respond 200 (JArr (summary <$> s))).

(** [POST /submit] *)
Definition submit (now : Z) (s : Quiz.store) (code : string)
    (userId : option string) (score : Z) : Quiz.store * Response :=
  match Quiz.findOne code s with
  | None => (s, error 404 "Quiz not found")
  | Some (i, quiz) =>
      let quiz := Quiz.set_scores (Quiz.scores quiz ++ [Score.mk userId score now]) quiz in
      let above := filter (λ e, score < Score.score e) (Quiz.scores quiz) in
      (Quiz.save i quiz s,
       respond 200 (obj [("message", Some (JStr "Score submitted successfully"));
                         ("currentRank", Some (JNum (Z.of_nat (length above) + 1)))]))
  end.

(** [a.sort(compare)]: the sort of the engine is stable, so an element
    moves in front of exactly those it compares strictly below. *)
Fixpoint sort_insert {A} (compare : A → A → Z) (x : A) (sorted : list A) : list A :=
  match sorted with
  | [] => [x]
  | y :: rest =>
      if compare x y <=? 0 then x :: sorted
      else y :: sort_insert compare x rest
  end.

Definition sort {A} (compare : A → A → Z) (a : list A) : list A :=
  foldr (sort_insert compare) [] a.

(** The comparison function of the leaderboard, [(a, b) => b.score - a.score]. *)
Definition by_score (a b : Score.t) : Z := Score.score b - Score.score a.

(** The entry of the leaderboard at position [index],
    [{ ...score.toObject(), rank: index + 1 }]. *)
Definition ranked (index : nat) (score : Score.t) : json :=
  obj (score_fields score ++ [("rank", Some (JNum (Z.of_nat index + 1)))]).

(** [GET /leaderboard/:code] *)
Definition leaderboard (s : Quiz.store) (code : string) : Quiz.store * Response :=
  match Quiz.findOne code s with
  | None => (s, error 404 "Quiz not found")
  | Some (_, quiz) =>
      let leaderboard := imap ranked (sort by_score (Quiz.scores quiz)) in
      (s, respond 200 (JArr leaderboard))
  end.

(** ** Properties of responses *)

(** A response hides the answers when no property of its body, at any
    depth, is named [correctAnswer]. *)
Definition hides (r : Response) : Prop :=
  mentions "correctAnswer" (res_body r) = false.

(** The sanitised question list of a response: the [questions] property of
    the body, or of its [quiz] property. *)
Definition questions_view (r : Response) : option (list json) :=
  match jfield "questions" (res_body r) with
  | Some (JArr entries) => Some entries
  | _ =>
      match jfield "quiz" (res_body r) ≫= jfield "questions" with
      | Some (JArr entries) => Some entries
      | _ => None
      end
  end.

(** The response carries one entry per question of [quiz], none of which
    has a [correctAnswer] property. *)
Definition sanitized_for (quiz : Quiz.t) (r : Response) : Prop :=
  ∃ entries,
    questions_view r = Some entries
    ∧ length entries = length (Quiz.questions quiz)
    ∧ Forall (λ entry, jfield "correctAnswer" entry = None) entries.

(** The response of a call that was refused. *)
Definition refused (r : Response) : Prop :=
  res_status r ∈ [400; 403; 404] ∧ questions_view r = None.

(** What a participant may see of [quiz] in a response. *)
Definition participant_view (quiz : Quiz.t) (r : Response) : Prop :=
  hides r ∧ (res_status r = 200 ∧ sanitized_for quiz r ∨ refused r).

(** The routes other than [/submit-answer] and [/:code/admin], called on
    the code of [quiz] in the collection [s]. *)
Definition answers_hidden (s : Quiz.store) (code : string) (quiz : Quiz.t) : Prop :=
  (∀ userId, participant_view quiz (R1.get s code userId).2)
  ∧ (∀ userId username,
       participant_view quiz (R1.join s (Some code) userId username).2)
  ∧ (∀ now creatorName,
       participant_view quiz (R1.start now s (Some code) creatorName).2)
  ∧ participant_view quiz (R2.get s code).2
  ∧ (∀ userId, participant_view quiz (R2.join s code userId).2)
  ∧ (∀ now userId, participant_view quiz (R2.start now s code userId).2)
  ∧ hides (listQuizzes s).2
  ∧ (∀ now userId score, hides (submit now s code userId score).2)
  ∧ hides (leaderboard s code).2
  ∧ (∀ random title category questions createdBy creatorName,
       hides (R1.create random s title category questions createdBy creatorName).2)
  ∧ (∀ random36 title category questions userId,
       hides (R2.create random36 s title category questions userId).2).

(** The number of score entries above [score]. *)
Definition above (score : Z) (scores : list Score.t) : Z :=
  Z.of_nat (length (filter (λ e, score < Score.score e) scores)).

(** The participant count of the quiz with the given code. *)
Definition participantCount (code : string) (s : Quiz.store) : option Z :=
  (λ found, Z.of_nat (length (Quiz.participants found.2))) <$> Quiz.findOne code s.

(** The participant count that a response of [POST /join] reports. *)
Definition reported_count (r : Response) : option json :=
  jfield "quiz" (res_body r) ≫= jfield "participantCount".


(** The order of the leaderboard. *)
Definition score_ge (a b : Score.t) : Prop := Score.score b ≤ Score.score a.

(** The rank that a leaderboard gives to the first entry of a user. *)
Definition rank_of (userId : string) (body : json) : option json :=
  match body with
  | JArr entries =>
      List.find (λ entry, match jfield "userId" entry with
                          | Some (JStr u) => String.eqb u userId
                          | _ => false
                          end) entries
      ≫= jfield "rank"
  | _ => None
  end.

(** A join code as the specification describes it: six characters of
    the alphabet A-Z, 0-9. *)
Definition join_code (code : string) : Prop :=
  String.length code = 6%nat
  ∧ Forall (λ c, alnum_upper c = true) (String.list_ascii_of_string code).

(** A question that the specification asks [create] to reject: it lacks
    its text, type or correct answer, or it is a multiple choice with
    fewer than two options. *)
Definition ill_formed (q : Question.t) : Prop :=
  Question.text q = None
  ∨ Question.type q = None
  ∨ Question.correctAnswer q = None
  ∨ (Question.type q = Some "multiple"
     ∧ (length (arr_or (Question.options q)) < 2)%nat).

(** ** Example documents *)

Definition Q1 : Question.t :=
  Question.mk (Some "Q1") (Some "multiple") (Some ["A"; "B"]) (Some "A") (Some 30).

(** A quiz of revision 1 that one participant has joined. *)
Definition pending_quiz : Quiz.t :=
  Quiz.mk "ABC123" "T" "C" [Q1] (Some "u1") (Some "Alice") "pending"
    [Participant.Rec "u2" "Bob" 0] [] None None.

(** The same quiz once started. *)
Definition active_quiz : Quiz.t :=
  Quiz.set_startTime 5 (Quiz.set_status "active" pending_quiz).

(** A quiz of revision 2 that one participant has joined. *)
Definition waiting_quiz : Quiz.t :=
  Quiz.mk "XYZ789" "T" "C" [Q1] (Some "u1") None "waiting"
    [Participant.Id "u2"] [] None None.

(** A quiz whose score list holds 90 and 70. *)
Definition scored_quiz : Quiz.t :=
  Quiz.set_scores [Score.mk (Some "u2") 90 1; Score.mk (Some "u3") 70 2] active_quiz.

(** The active quiz after three users have submitted 50, 90 and 70. *)
Definition three_scores : Quiz.store :=
  let s1 := (submit 1 [active_quiz] "ABC123" (Some "u2") 50).1 in
  let s2 := (submit 2 s1 "ABC123" (Some "u3") 90).1 in
  (submit 3 s2 "ABC123" (Some "u4") 70).1.

(** A multiple choice question without text and with a single option. *)
Definition bad_question : Question.t :=
  Question.mk None (Some "multiple") (Some ["A"]) (Some "A") None.

(** A stream of draws that are all one half. *)
Definition halves : nat → Double.t := λ _, Double.mk 1 1.

(** ** The router as a whole *)

(** A request to one of the routes, with the fields its handler reads.
    The routes of both revisions are listed; a sequence of requests may
    use either, so what holds of all sequences holds of each revision
    alone. *)
Inductive request :=
  | Create1 (random : nat → Double.t) (title category : option string)
      (questions : option (list Question.t)) (createdBy creatorName : option string)
  | Get1 (code : string) (userId : option string)
  | Admin1 (code : string) (createdBy : option string)
  | Join1 (code userId username : option string)
  | Start1 (now : Z) (code creatorName : option string)
  | Create2 (random36 : string) (title category : option string)
      (questions : option (list Question.t)) (userId : option string)
  | Get2 (code : string)
  | Admin2 (code : string) (userId : option string)
  | Join2 (code userId : string)
  | Start2 (now : Z) (code : string) (userId : option string)
  | SubmitAnswer (now : Z) (code : string) (userId : option string)
      (questionIndex : Z) (answer : option string)
  | ListQuizzes
  | Submit (now : Z) (code : string) (userId : option string) (score : Z)
  | Leaderboard (code : string).

Definition handle (r : request) (s : Quiz.store) : Quiz.store * Response :=
  match r with
  | Create1 random title category questions createdBy creatorName =>
      R1.create random s title category questions createdBy creatorName
  | Get1 code userId => R1.get s code userId
  | Admin1 code createdBy => R1.admin s code createdBy
  | Join1 code userId username => R1.join s code userId username
  | Start1 now code creatorName => R1.start now s code creatorName
  | Create2 random36 title category questions userId =>
      R2.create random36 s title category questions userId
  | Get2 code => R2.get s code
  | Admin2 code userId => R2.admin s code userId
  | Join2 code userId => R2.join s code userId
  | Start2 now code userId => R2.start now s code userId
  | SubmitAnswer now code userId questionIndex answer =>
      submitAnswer now s code userId questionIndex answer
  | ListQuizzes => listQuizzes s
  | Submit now code userId score => submit now s code userId score
  | Leaderboard code => leaderboard s code
  end.

(** The collection after a sequence of requests, served one at a time. *)
Definition serve (rs : list request) (s : Quiz.store) : Quiz.store :=
  foldl (λ s r, (handle r s).1) s rs.

(** The key under which a participant is a member. *)
Definition participant_key (p : Participant.t) : string + string :=
  match p with
  | Participant.Rec userId _ _ => inl userId
  | Participant.Id userId => inr userId
  end.

(** The updates that the handlers make to a stored quiz. *)
Inductive update (q : Quiz.t) : Quiz.t → Prop :=
  | update_join p :
      Quiz.status q ≠ "active" →
      participant_key p ∉ participant_key <$> Quiz.participants q →
      update q (Quiz.set_participants (Quiz.participants q ++ [p]) q)
  | update_start now :
      Quiz.participants q ≠ [] →
      update q (Quiz.set_startTime now (Quiz.set_status "active" q))
  | update_answer userId questionIndex answer now question :
      Quiz.status q = "active" →
      js_index (Quiz.questions q) questionIndex = Some question →
      update q
        (Quiz.set_answers
           (arr_or (Quiz.answers q)
            ++ [Answer.mk userId questionIndex answer
                  (bool_decide (Question.correctAnswer question = answer)) now]) q)
  | update_score e :
      update q (Quiz.set_scores (Quiz.scores q ++ [e]) q).

(** A quiz as [create] stores it: its code is in upper case, it waits
    for its start with no participant, score or answer, and every question
    has options and a time limit other than 0. *)
Definition created (q : Quiz.t) : Prop :=
  toUpperCase (Quiz.code q) = Quiz.code q
  ∧ (Quiz.status q = "pending" ∨ Quiz.status q = "waiting")
  ∧ Quiz.participants q = [] ∧ Quiz.scores q = []
  ∧ Quiz.answers q = None ∧ Quiz.startTime q = None
  ∧ Forall (λ question,
        is_Some (Question.options question)
        ∧ ∃ n, Question.timeLimit question = Some n ∧ n ≠ 0)
      (Quiz.questions q).

(** What a request does to the collection: nothing, one more quiz at the
    end, or one update of the quiz at some position. *)
Inductive effect (s : Quiz.store) : Quiz.store → Prop :=
  | effect_none : effect s s
  | effect_create q : created q → effect s (s ++ [q])
  | effect_update i q q' : s !! i = Some q → update q q' → effect s (<[i := q']> s).

(** What stays of a quiz [q] in a later state [q'] of it. *)
Record evolves (q q' : Quiz.t) : Prop := {
  evolves_code : Quiz.code q' = Quiz.code q;
  evolves_title : Quiz.title q' = Quiz.title q;
  evolves_category : Quiz.category q' = Quiz.category q;
  evolves_questions : Quiz.questions q' = Quiz.questions q;
  evolves_createdBy : Quiz.createdBy q' = Quiz.createdBy q;
  evolves_creatorName : Quiz.creatorName q' = Quiz.creatorName q;
  evolves_status : Quiz.status q' = Quiz.status q ∨ Quiz.status q' = "active";
  evolves_active : Quiz.status q = "active" → Quiz.status q' = "active";
  evolves_participants : Quiz.participants q `prefix_of` Quiz.participants q';
  evolves_scores : Quiz.scores q `prefix_of` Quiz.scores q';
  evolves_answers : arr_or (Quiz.answers q) `prefix_of` arr_or (Quiz.answers q')
}.

(** The state of a quiz is coherent: its participants are distinct, and
    an active quiz has a participant. *)
Record coherent (q : Quiz.t) : Prop := {
  coherent_distinct : NoDup (participant_key <$> Quiz.participants q);
  coherent_started : Quiz.status q = "active" → Quiz.participants q ≠ []
}.

(** A session on the quiz of the examples: a second participant joins,
    the creator starts it, an answer and a score come in, and another quiz
    is created. *)
Definition session : list request :=
  [Join1 (Some "ABC123") (Some "u3") (Some "Carol");
   Start1 5 (Some "ABC123") (Some "Alice");
   SubmitAnswer 6 "ABC123" (Some "u2") 0 (Some "A");
   Submit 7 "ABC123" (Some "u2") 10;
   Create1 halves (Some "T2") (Some "C2") (Some [Q1]) (Some "u9") (Some "Zoe")].

(** A question that passes the loop of [create] in revision 2: text, type
    and correct answer are present and not empty, and a multiple choice
    brings at least two options. *)
Definition accepted (q : Question.t) : Prop :=
  is_Some (truthy (Question.text q))
  ∧ is_Some (truthy (Question.type q))
  ∧ is_Some (truthy (Question.correctAnswer q))
  ∧ (Question.type q = Some "multiple" →
     ∃ options, Question.options q = Some options ∧ (2 ≤ length options)%nat).

(** The requests whose handlers only read the collection. *)
Definition read_only (r : request) : bool :=
  match r with
  | Get1 _ _ | Admin1 _ _ | Get2 _ | Admin2 _ _ | ListQuizzes | Leaderboard _ => true
  | _ => false
  end.

(** Every route that takes a code answers 404 for [code] and stores
    nothing. *)
Definition not_found_everywhere (s : Quiz.store) (code : string) : Prop :=
  (∀ userId, R1.get s code userId = (s, error 404 "Quiz not found"))
  ∧ (∀ identity, R1.admin s code identity = (s, error 404 "Quiz not found")
                 ∧ R2.admin s code identity = (s, error 404 "Quiz not found"))
  ∧ (∀ userId username,
       userId ≠ "" → username ≠ "" → code ≠ "" →
       R1.join s (Some code) (Some userId) (Some username) =
         (s, error 404 "Quiz not found"))
  ∧ (∀ now creatorName,
       creatorName ≠ "" → code ≠ "" →
       R1.start now s (Some code) (Some creatorName) = (s, error_s 404 "Quiz not found"))
  ∧ R2.get s code = (s, error 404 "Quiz not found")
  ∧ (∀ userId, R2.join s code userId = (s, error 404 "Quiz not found"))
  ∧ (∀ now userId, R2.start now s code userId = (s, error 404 "Quiz not found"))
  ∧ (∀ now userId questionIndex answer,
       submitAnswer now s code userId questionIndex answer =
         (s, error 404 "Quiz not found"))
  ∧ (∀ now userId score,
       submit now s code userId score = (s, error 404 "Quiz not found"))
  ∧ leaderboard s code = (s, error 404 "Quiz not found").

(** A digit of a number written in base 36, as [toString(36)] prints it. *)
Definition base36 (c : ascii) : bool :=
  let n := nat_of_ascii c in
  ((48 <=? n) && (n <=? 57) || (97 <=? n) && (n <=? 122))%nat.

(** ** The routing table *)

Inductive method := GET | POST.

(** A segment of a route path: a literal or a parameter such as [:code]. *)
Inductive segment := Lit (name : string) | Param.

Inductive route :=
  | RCreate | RGet | RAdmin | RJoin | RStart | RSubmitAnswer | RList | RSubmit
  | RLeaderboard.

(** The routes in the order in which the router registers them, the same
    in both revisions. *)
Definition routes : list (method * list segment * route) :=
  [(POST, [Lit "create"], RCreate);
   (GET, [Param], RGet);
   (GET, [Param; Lit "admin"], RAdmin);
   (POST, [Lit "join"], RJoin);
   (POST, [Lit "start"], RStart);
   (POST, [Lit "submit-answer"], RSubmitAnswer);
   (GET, [Lit "list"], RList);
   (POST, [Lit "submit"], RSubmit);
   (GET, [Lit "leaderboard"; Param], RLeaderboard)].

Definition lower (c : ascii) : ascii :=
  let n := nat_of_ascii c in
  if ((65 <=? n) && (n <=? 90))%nat then ascii_of_nat (n + 32) else c.

Fixpoint toLowerCase (s : string) : string :=
  match s with
  | EmptyString => EmptyString
  | String c s => String (lower c) (toLowerCase s)
  end.

(** The match of a path, given by its segments, against a route path: a
    literal matches without regard to case, a parameter matches any
    segment that is not empty and takes it as its value. *)
Fixpoint matches (pattern : list segment) (path : list string) : option (list string) :=
  match pattern, path with
  | [], [] => Some []
  | Lit name :: pattern, seg :: path =>
      if String.eqb (toLowerCase seg) (toLowerCase name) then matches pattern path
      else None
  | Param :: pattern, seg :: path =>
      if String.eqb seg "" then None else cons seg <$> matches pattern path
  | _, _ => None
  end.

Definition same_method (m m' : method) : bool :=
  match m, m' with
  | GET, GET | POST, POST => true
  | _, _ => false
  end.

(** The first registered route that matches answers the request, with the
    values of its parameters; every handler ends the response. *)
Fixpoint first_match (table : list (method * list segment * route)) (m : method)
    (path : list string) : option (route * list string) :=
  match table with
  | [] => None
  | (m', pattern, r) :: table =>
      match (if same_method m m' then matches pattern path else None) with
      | Some params => Some (r, params)
      | None => first_match table m path
      end
  end.

Definition dispatch (m : method) (path : list string) : option (route * list string) :=
  first_match routes m path.

(** The opening of a quiz: it is created, a participant joins with the
    code that [halves] yields, and the creator starts it. *)
Definition opening : list request :=
  [Create1 halves (Some "T") (Some "C") (Some [Q1]) (Some "u1") (Some "Alice");
   Join1 (Some "SSSSSS") (Some "u2") (Some "Bob");
   Start1 5 (Some "SSSSSS") (Some "Alice")].

(** The stored question [stored] holds what the question [sent] of a
    create request says: its text, type and correct answer, and its
    options, the empty list standing for missing ones. *)
Definition stored_as (sent stored : Question.t) : Prop :=
  Question.text stored = Question.text sent
  ∧ Question.type stored = Question.type sent
  ∧ Question.correctAnswer stored = Question.correctAnswer sent
  ∧ Question.options stored = Some (arr_or (Question.options sent)).

(** The collection [s'] is [s] with the quiz [quiz] at position [i] made
    active and otherwise left as it was, the start time apart. *)
Definition started (i : nat) (quiz : Quiz.t) (s s' : Quiz.store) : Prop :=
  ∃ quiz',
    s' = <[i := quiz']> s
    ∧ Quiz.status quiz' = "active"
    ∧ Quiz.code quiz' = Quiz.code quiz
    ∧ Quiz.title quiz' = Quiz.title quiz
    ∧ Quiz.category quiz' = Quiz.category quiz
    ∧ Quiz.questions quiz' = Quiz.questions quiz
    ∧ Quiz.createdBy quiz' = Quiz.createdBy quiz
    ∧ Quiz.creatorName quiz' = Quiz.creatorName quiz
    ∧ Quiz.participants quiz' = Quiz.participants quiz
    ∧ Quiz.scores quiz' = Quiz.scores quiz
    ∧ Quiz.answers quiz' = Quiz.answers quiz.
(** ** Property names of a response *)

Section Mentions.
Context (k : string).

Lemma mentions_obj_nil : mentions k (obj []) = false.
Proof. reflexivity. Qed.

Lemma mentions_obj_cons k' o fs :
  mentions k (obj ((k', o) :: fs)) =
  match o with
  | Some v => String.eqb k k' || mentions k v
  | None => false
  end || mentions k (obj fs).
Proof. destruct o; reflexivity. Qed.

Lemma mentions_app fs gs :
  mentions k (obj (fs ++ gs)) = mentions k (obj fs) || mentions k (obj gs).
Proof.
  induction fs as [|[k' o] fs IH]; [reflexivity|].
  rewrite <- app_comm_cons, !mentions_obj_cons, IH. apply orb_assoc.
Qed.

Lemma mentions_arr {A} (f : A → json) l :
  (∀ x, mentions k (f x) = false) → mentions k (JArr (f <$> l)) = false.
Proof.
  intros Hf. induction l as [|x l IH]; [reflexivity|].
  cbn in *. by rewrite Hf, IH.
Qed.

Lemma mentions_imap {A} (f : nat → A → json) l :
  (∀ i x, mentions k (f i x) = false) → mentions k (JArr (imap f l)) = false.
Proof.
  intros Hf. revert f Hf. induction l as [|x l IH]; intros f Hf; [reflexivity|].
  cbn in *. rewrite Hf. apply (IH (f ∘ S)). intros i y. apply Hf.
Qed.

Lemma mentions_jstr o :
  match jstr o with Some v => mentions k v | None => false end = false.
Proof. by destruct o. Qed.

Lemma mentions_jnum o :
  match jnum o with Some v => mentions k v | None => false end = false.
Proof. by destruct o. Qed.

Lemma mentions_jstrs l : mentions k (jstrs l) = false.
Proof. by apply mentions_arr. Qed.
End Mentions.

(** ** The answers stay hidden *)

Ltac fields :=
  repeat (rewrite mentions_obj_cons; cbn [String.eqb Ascii.eqb Bool.eqb orb]);
  rewrite ?mentions_obj_nil, ?mentions_jstrs, ?mentions_jstr, ?mentions_jnum.

Lemma sanitize_defaults_hides q : mentions "correctAnswer" (sanitize_defaults q) = false.
Proof. unfold sanitize_defaults. by fields. Qed.

Lemma sanitize_timeLimit_hides q : mentions "correctAnswer" (sanitize_timeLimit q) = false.
Proof.
  unfold sanitize_timeLimit. destruct (Question.options q); cbn [fmap option_fmap option_map]; by fields.
Qed.

Lemma sanitize_plain_hides q : mentions "correctAnswer" (sanitize_plain q) = false.
Proof.
  unfold sanitize_plain. destruct (Question.options q); cbn [fmap option_fmap option_map]; by fields.
Qed.

Lemma participant_json_hides p : mentions "correctAnswer" (participant_json p) = false.
Proof. by destruct p. Qed.

Lemma score_fields_hides e : mentions "correctAnswer" (obj (score_fields e)) = false.
Proof. unfold score_fields. by fields. Qed.

Lemma hides_error st msg : hides (error st msg).
Proof. reflexivity. Qed.

Lemma hides_error_s st msg : hides (error_s st msg).
Proof. reflexivity. Qed.

Lemma R1_joined_hides msg quiz : hides (R1.joined msg quiz).
Proof.
  unfold hides, R1.joined; cbn [res_body]. fields.
  by rewrite (mentions_arr _ _ _ sanitize_defaults_hides),
       (mentions_arr _ _ _ participant_json_hides).
Qed.

Lemma R2_joined_hides quiz : hides (R2.joined quiz).
Proof.
  unfold hides, R2.joined; cbn [res_body]. fields.
  by rewrite (mentions_arr _ _ _ sanitize_plain_hides).
Qed.

Create HintDb hides.
#[local] Hint Resolve hides_error hides_error_s R1_joined_hides R2_joined_hides : hides.

Ltac hide :=
  unfold hides; cbn [res_body snd]; fields;
  rewrite ?(mentions_arr _ _ _ sanitize_defaults_hides),
    ?(mentions_arr _ _ _ sanitize_timeLimit_hides),
    ?(mentions_arr _ _ _ sanitize_plain_hides);
  reflexivity.

Lemma R1_get_hides s code userId : hides (R1.get s code userId).2.
Proof. unfold R1.get. repeat case_match; cbn [snd]; auto with hides. hide. Qed.

Lemma R1_join_hides s code userId username : hides (R1.join s code userId username).2.
Proof. unfold R1.join. repeat case_match; cbn [snd]; auto with hides. Qed.

Lemma R1_start_hides now s code creatorName : hides (R1.start now s code creatorName).2.
Proof. unfold R1.start. repeat case_match; cbn [snd]; auto with hides. hide. Qed.

Lemma R2_get_hides s code : hides (R2.get s code).2.
Proof. unfold R2.get. repeat case_match; cbn [snd]; auto with hides. hide. Qed.

Lemma R2_join_hides s code userId : hides (R2.join s code userId).2.
Proof. unfold R2.join. repeat case_match; cbn [snd]; auto with hides. Qed.

Lemma R2_start_hides now s code userId : hides (R2.start now s code userId).2.
Proof. unfold R2.start. repeat case_match; cbn [snd]; auto with hides. hide. Qed.

Lemma listQuizzes_hides s : hides (listQuizzes s).2.
Proof.
  unfold listQuizzes, hides; cbn [snd res_body].
  apply mentions_arr. intros quiz. by fields.
Qed.

Lemma submit_hides now s code userId score : hides (submit now s code userId score).2.
Proof. unfold submit. repeat case_match; cbn [snd]; auto with hides. hide. Qed.

Lemma leaderboard_hides s code : hides (leaderboard s code).2.
Proof.
  unfold leaderboard. repeat case_match; cbn [snd]; auto with hides.
  unfold hides; cbn [res_body]. apply mentions_imap. intros i e.
  unfold ranked. rewrite mentions_app, score_fields_hides. by fields.
Qed.

Lemma R1_create_hides random s title category questions createdBy creatorName :
  hides (R1.create random s title category questions createdBy creatorName).2.
Proof. unfold R1.create. repeat case_match; cbn [snd]; auto with hides. hide. Qed.

Lemma R2_validate_hides questions rejected :
  R2.validate questions = Some rejected → hides rejected.
Proof.
  induction questions as [|question rest IH]; [done|].
  cbn [R2.validate]. repeat case_match; auto; intros [= <-]; auto with hides.
Qed.

Lemma R2_create_hides random36 s title category questions userId :
  hides (R2.create random36 s title category questions userId).2.
Proof.
  unfold R2.create. repeat case_match; cbn [snd]; eauto using R2_validate_hides with hides.
  hide.
Qed.

Lemma truthy_Some o s : truthy o = Some s ↔ o = Some s ∧ s ≠ "".
Proof.
  unfold truthy. destruct o as [s'|]; [case_bool_decide|]; intuition congruence.
Qed.

Lemma sanitize_defaults_no_field q : jfield "correctAnswer" (sanitize_defaults q) = None.
Proof. destruct q as [[] [] ? ? ?]; reflexivity. Qed.

Lemma sanitize_timeLimit_no_field q : jfield "correctAnswer" (sanitize_timeLimit q) = None.
Proof. destruct q as [[] [] [] ? ?]; reflexivity. Qed.

Lemma sanitize_plain_no_field q : jfield "correctAnswer" (sanitize_plain q) = None.
Proof. destruct q as [[] [] [] ? []]; reflexivity. Qed.

Lemma sanitized_for_intro quiz r (f : Question.t → json) :
  questions_view r = Some (f <$> Quiz.questions quiz) →
  (∀ q, jfield "correctAnswer" (f q) = None) →
  sanitized_for quiz r.
Proof.
  intros Hview Hf. exists (f <$> Quiz.questions quiz).
  split_and!; [done|by rewrite length_fmap|].
  apply Forall_fmap, Forall_forall. intros q _. apply Hf.
Qed.

Lemma R1_get_sanitized s code userId i quiz :
  Quiz.findOne code s = Some (i, quiz) → sanitized_for quiz (R1.get s code userId).2.
Proof.
  intros Hfind. unfold R1.get. rewrite Hfind. cbn [snd].
  by apply (sanitized_for_intro _ _ sanitize_defaults), sanitize_defaults_no_field.
Qed.

Lemma R1_join_sanitized s code userId username i quiz :
  Quiz.findOne code s = Some (i, quiz) →
  res_status (R1.join s (Some code) userId username).2 = 200 →
  sanitized_for quiz (R1.join s (Some code) userId username).2.
Proof.
  intros Hfind. unfold R1.join, Quiz.findOneAndUpdate.
  repeat case_match; simplify_eq; cbn [snd]; try discriminate; intros _.
  all: match goal with H : truthy (Some _) = Some _ |- _ =>
         apply truthy_Some in H; destruct H end; simplify_eq.
  all: by apply (sanitized_for_intro _ _ sanitize_defaults), sanitize_defaults_no_field.
Qed.

Lemma R1_start_sanitized now s code creatorName i quiz :
  Quiz.findOne code s = Some (i, quiz) →
  res_status (R1.start now s (Some code) creatorName).2 = 200 →
  sanitized_for quiz (R1.start now s (Some code) creatorName).2.
Proof.
  intros Hfind. unfold R1.start.
  repeat case_match; simplify_eq; cbn [snd]; try discriminate; intros _.
  match goal with H : truthy (Some _) = Some _ |- _ =>
    apply truthy_Some in H; destruct H end; simplify_eq.
  by apply (sanitized_for_intro _ _ sanitize_timeLimit), sanitize_timeLimit_no_field.
Qed.

Lemma R2_get_sanitized s code i quiz :
  Quiz.findOne code s = Some (i, quiz) → sanitized_for quiz (R2.get s code).2.
Proof.
  intros Hfind. unfold R2.get. rewrite Hfind. cbn [snd].
  by apply (sanitized_for_intro _ _ sanitize_plain), sanitize_plain_no_field.
Qed.

Lemma R2_join_sanitized s code userId i quiz :
  Quiz.findOne code s = Some (i, quiz) →
  res_status (R2.join s code userId).2 = 200 →
  sanitized_for quiz (R2.join s code userId).2.
Proof.
  intros Hfind. unfold R2.join. rewrite Hfind.
  repeat case_match; cbn [snd]; try discriminate; intros _.
  all: by apply (sanitized_for_intro _ _ sanitize_plain), sanitize_plain_no_field.
Qed.

Lemma R2_start_sanitized now s code userId i quiz :
  Quiz.findOne code s = Some (i, quiz) →
  res_status (R2.start now s code userId).2 = 200 →
  sanitized_for quiz (R2.start now s code userId).2.
Proof.
  intros Hfind. unfold R2.start. rewrite Hfind.
  repeat case_match; cbn [snd]; try discriminate; intros _.
  by apply (sanitized_for_intro _ _ sanitize_plain), sanitize_plain_no_field.
Qed.
Lemma refused_error st msg : st ∈ [400; 403; 404] → refused (error st msg).
Proof. done. Qed.

Lemma refused_error_s st msg : st ∈ [400; 403; 404] → refused (error_s st msg).
Proof. done. Qed.

Ltac outcome :=
  repeat case_match; cbn [snd];
  first [ by left
        | right; first [apply refused_error | apply refused_error_s];
          repeat constructor ].

Lemma R1_join_outcome s code userId username :
  let r := (R1.join s code userId username).2 in res_status r = 200 ∨ refused r.
Proof. unfold R1.join. outcome. Qed.

Lemma R1_start_outcome now s code creatorName :
  let r := (R1.start now s code creatorName).2 in res_status r = 200 ∨ refused r.
Proof. unfold R1.start. outcome. Qed.

Lemma R2_join_outcome s code userId :
  let r := (R2.join s code userId).2 in res_status r = 200 ∨ refused r.
Proof. unfold R2.join. outcome. Qed.

Lemma R2_start_outcome now s code userId :
  let r := (R2.start now s code userId).2 in res_status r = 200 ∨ refused r.
Proof. unfold R2.start. outcome. Qed.

Lemma participant_view_intro quiz r :
  hides r →
  (res_status r = 200 → sanitized_for quiz r) →
  res_status r = 200 ∨ refused r →
  participant_view quiz r.
Proof. unfold participant_view. intuition. Qed.

(** C1. In both revisions the responses of [GET /:code], [POST /join]
    and [POST /start] on an existing quiz either refuse the call or carry
    exactly one entry per question, none with a [correctAnswer] property;
    no property of that name occurs anywhere in these responses, nor in
    those of [/list], [/submit] and [/leaderboard].  Only
    [/submit-answer] and [/:code/admin] are left to reveal an answer. *)
Theorem sanitized_views_hide_correctAnswer s code i quiz :
  Quiz.findOne code s = Some (i, quiz) → answers_hidden s code quiz.
Proof.
  intros Hfind. unfold answers_hidden.
  split_and!; intros; try apply participant_view_intro;
    eauto using R1_get_hides, R1_join_hides, R1_start_hides, R2_get_hides,
      R2_join_hides, R2_start_hides, listQuizzes_hides, submit_hides, leaderboard_hides,
      R1_create_hides, R2_create_hides, R1_get_sanitized, R1_join_sanitized, R1_start_sanitized, R2_get_sanitized,
      R2_join_sanitized, R2_start_sanitized.
  all: try apply R1_join_outcome; try apply R1_start_outcome;
       try apply R2_join_outcome; try apply R2_start_outcome.
  - left. unfold R1.get. by rewrite Hfind.
  - left. unfold R2.get. by rewrite Hfind.
Qed.

Lemma sanitized_views_hide_correctAnswer_witness :
  Quiz.findOne "ABC123" [pending_quiz] = Some (0%nat, pending_quiz)
  ∧ answers_hidden [pending_quiz] "ABC123" pending_quiz.
Proof.
  split; [reflexivity|].
  apply (sanitized_views_hide_correctAnswer [pending_quiz] "ABC123" 0 pending_quiz).
  reflexivity.
Defined.

(** ** The collection *)

Lemma findOne_Some code s i quiz :
  Quiz.findOne code s = Some (i, quiz) → s !! i = Some quiz ∧ Quiz.code quiz = code.
Proof. unfold Quiz.findOne. rewrite list_find_Some. tauto. Qed.

Lemma findOne_save code s i quiz quiz' :
  Quiz.findOne code s = Some (i, quiz) →
  Quiz.code quiz' = code →
  Quiz.findOne code (Quiz.save i quiz' s) = Some (i, quiz').
Proof.
  unfold Quiz.findOne, Quiz.save. rewrite !list_find_Some.
  intros (Hi & Hcode & Hfirst) Hcode'. split_and!; [|done|].
  - apply list_lookup_insert_eq. by eapply lookup_lt_Some.
  - intros j y Hj Hlt. rewrite list_lookup_insert_ne in Hj by lia. eauto.
Qed.

Lemma truthy_intro s : s ≠ "" → truthy (Some s) = Some s.
Proof. intros. by apply truthy_Some. Qed.

(** ** Starting a quiz *)

Lemma R1_start_active now s code creatorName i quiz :
  code ≠ "" → creatorName ≠ "" →
  Quiz.findOne code s = Some (i, quiz) →
  Quiz.status quiz = "active" →
  R1.start now s (Some code) (Some creatorName) =
    (s, if bool_decide (Quiz.creatorName quiz = Some creatorName)
        then error_s 400 "Quiz is already started"
        else error_s 403 "Only quiz creator can start the quiz").
Proof.
  intros Hcode Hname Hfind Hactive. unfold R1.start.
  rewrite !truthy_intro, Hfind by done.
  repeat case_bool_decide; done.
Qed.

Lemma R1_start_ok now s code creatorName :
  res_status (R1.start now s code creatorName).2 = 200 →
  ∃ c n i quiz,
    code = Some c ∧ c ≠ "" ∧ creatorName = Some n ∧ n ≠ ""
    ∧ Quiz.findOne c s = Some (i, quiz)
    ∧ Quiz.creatorName quiz = Some n
    ∧ (R1.start now s code creatorName).1 =
        Quiz.save i (Quiz.set_startTime now (Quiz.set_status "active" quiz)) s.
Proof.
  unfold R1.start.
  destruct (truthy code) as [c|] eqn:Hc; [|done].
  destruct (truthy creatorName) as [n|] eqn:Hn; [|done].
  destruct (Quiz.findOne c s) as [[i quiz]|] eqn:Hfind; [|done].
  apply truthy_Some in Hc as [-> Hc], Hn as [-> Hn].
  case_bool_decide as Hname; [done|].
  repeat case_match; try done. intros _. by exists c, n, i, quiz.
Qed.

Lemma R1_start_again now now' s code creatorName :
  let started := R1.start now s code creatorName in
  res_status started.2 = 200 →
  R1.start now' started.1 code creatorName =
    (started.1, error_s 400 "Quiz is already started").
Proof.
  intros started (c & n & i & quiz & -> & Hc & -> & Hn & Hfind & Hname & Hs)%R1_start_ok.
  subst started. rewrite Hs.
  set (quiz' := Quiz.set_startTime now (Quiz.set_status "active" quiz)).
  assert (Quiz.findOne c (Quiz.save i quiz' s) = Some (i, quiz')) as Hfind'.
  { apply (findOne_save _ _ _ quiz); [done|]. by apply findOne_Some in Hfind as [_ <-]. }
  rewrite (R1_start_active _ _ _ _ _ _ Hc Hn Hfind') by done.
  by rewrite bool_decide_eq_true_2.
Qed.

(** C2 (as the code has it).  In revision 1, [POST /start] with its two
    fields present on a quiz that is already active changes nothing and is
    refused: with 403 when the creator name differs from the stored one,
    with the conflict 400 "Quiz is already started" when it matches.  Hence
    a second start with the same fields after a successful one is refused
    with that conflict. *)
Theorem R1_start_refuses_active_quiz :
  (∀ now s code creatorName i quiz,
     code ≠ "" → creatorName ≠ "" →
     Quiz.findOne code s = Some (i, quiz) →
     Quiz.status quiz = "active" →
     R1.start now s (Some code) (Some creatorName) =
       (s, if bool_decide (Quiz.creatorName quiz = Some creatorName)
           then error_s 400 "Quiz is already started"
           else error_s 403 "Only quiz creator can start the quiz"))
  ∧ (∀ now now' s code creatorName,
       res_status (R1.start now s code creatorName).2 = 200 →
       R1.start now' (R1.start now s code creatorName).1 code creatorName =
         ((R1.start now s code creatorName).1, error_s 400 "Quiz is already started")).
Proof.
  split.
  - apply R1_start_active.
  - intros. by apply R1_start_again.
Qed.

Lemma R1_start_refuses_active_quiz_witness :
  R1.start 9 [active_quiz] (Some "ABC123") (Some "Alice") =
    ([active_quiz], error_s 400 "Quiz is already started")
  ∧ R1.start 9 (R1.start 5 [pending_quiz] (Some "ABC123") (Some "Alice")).1
      (Some "ABC123") (Some "Alice") =
    ((R1.start 5 [pending_quiz] (Some "ABC123") (Some "Alice")).1,
     error_s 400 "Quiz is already started").
Proof.
  split.
  - apply (proj1 R1_start_refuses_active_quiz 9 [active_quiz] "ABC123" "Alice"
             0%nat active_quiz); done.
  - apply (proj2 R1_start_refuses_active_quiz 5 9 [pending_quiz] (Some "ABC123")
             (Some "Alice")); reflexivity.
Defined.

(** C2 as stated fails: on an active quiz, a start by somebody other than
    the creator is refused with 403, not with the conflict 400. *)
Lemma start_active_by_stranger_is_403 :
  Quiz.findOne "ABC123" [active_quiz] = Some (0%nat, active_quiz)
  ∧ Quiz.status active_quiz = "active"
  ∧ R1.start 9 [active_quiz] (Some "ABC123") (Some "Mallory") =
      ([active_quiz], error_s 403 "Only quiz creator can start the quiz")
  ∧ res_status (R1.start 9 [active_quiz] (Some "ABC123") (Some "Mallory")).2 ≠ 400.
Proof. by split_and!. Qed.

(** Revision 2 has no guard on the status: its creator starts an active
    quiz again, and the start time is overwritten. *)
Lemma R2_start_twice :
  let active := Quiz.set_startTime 5 (Quiz.set_status "active" waiting_quiz) in
  (R2.start 5 [waiting_quiz] "XYZ789" (Some "u1")).1 = [active]
  ∧ res_status (R2.start 5 [waiting_quiz] "XYZ789" (Some "u1")).2 = 200
  ∧ (R2.start 9 [active] "XYZ789" (Some "u1")).1 = [Quiz.set_startTime 9 active]
  ∧ res_status (R2.start 9 [active] "XYZ789" (Some "u1")).2 = 200.
Proof. by split_and!. Qed.

(** ** The creator's view *)

(** C9 (as the code has it).  In both revisions [GET /:code/admin] first
    looks the quiz up: an unknown code is answered 404 whatever identity is
    supplied, and on an existing quiz an identity other than the stored
    [createdBy] is answered 403. *)
Theorem admin_not_found_then_forbidden s code identity :
  match Quiz.findOne code s with
  | None =>
      R1.admin s code identity = (s, error 404 "Quiz not found")
      ∧ R2.admin s code identity = (s, error 404 "Quiz not found")
  | Some (_, quiz) =>
      if bool_decide (Quiz.createdBy quiz = identity)
      then R1.admin s code identity = (s, respond 200 (quiz_json quiz))
           ∧ R2.admin s code identity = (s, respond 200 (quiz_json quiz))
      else R1.admin s code identity = (s, error 403 "Unauthorized access")
           ∧ R2.admin s code identity = (s, error 403 "Unauthorized access")
  end.
Proof.
  unfold R1.admin, R2.admin.
  destruct (Quiz.findOne code s) as [[i quiz]|]; [|done].
  repeat case_bool_decide; done.
Qed.

(** C9 as stated fails: with an identity that matches no stored creator
    and a code that no quiz has, the answer is 404 and not 403. *)
Lemma admin_unknown_code_is_404 :
  Quiz.findOne "NOSUCH" [pending_quiz] = None
  ∧ Quiz.createdBy pending_quiz ≠ Some "mallory"
  ∧ R1.admin [pending_quiz] "NOSUCH" (Some "mallory") =
      ([pending_quiz], error 404 "Quiz not found")
  ∧ R2.admin [pending_quiz] "NOSUCH" (Some "mallory") =
      ([pending_quiz], error 404 "Quiz not found")
  ∧ res_status (R1.admin [pending_quiz] "NOSUCH" (Some "mallory")).2 ≠ 403.
Proof. by split_and!. Qed.

(** ** Answers *)

(** C5.  On an active quiz, [POST /submit-answer] with an index outside
    [0, len(questions)) is answered 400 "Invalid question index" and stores
    nothing; with an index inside, the [correct] flag of the response is
    true exactly when the submitted answer equals the [correctAnswer] of
    that question. *)
Theorem submitAnswer_index_and_flag now s code userId questionIndex answer i quiz :
  Quiz.findOne code s = Some (i, quiz) →
  Quiz.status quiz = "active" →
  let r := submitAnswer now s code userId questionIndex answer in
  if bool_decide (0 ≤ questionIndex < Z.of_nat (length (Quiz.questions quiz)))
  then ∃ question correct,
         Quiz.questions quiz !! Z.to_nat questionIndex = Some question
         ∧ res_status r.2 = 200
         ∧ jfield "correct" (res_body r.2) = Some (JBool correct)
         ∧ (correct = true ↔ answer = Question.correctAnswer question)
  else r = (s, error 400 "Invalid question index").
Proof.
  intros Hfind Hactive. unfold submitAnswer. rewrite Hfind.
  rewrite (bool_decide_eq_false_2 (Quiz.status quiz ≠ "active")) by (by intros ?).
  unfold js_index. case_bool_decide as Hrange.
  - destruct (Z.ltb_spec questionIndex 0) as [|_]; [lia|].
    destruct (lookup_lt_is_Some_2 (Quiz.questions quiz) (Z.to_nat questionIndex))
      as [question Hq]; [lia|].
    rewrite Hq. eexists question, _. split_and!; [done..|].
    rewrite bool_decide_eq_true. split; congruence.
  - destruct (Z.ltb_spec questionIndex 0) as [|Hpos]; [done|].
    rewrite lookup_ge_None_2; [done|lia].
Qed.

Lemma submitAnswer_index_and_flag_witness :
  ∃ question correct,
    Quiz.questions active_quiz !! Z.to_nat 0 = Some question
    ∧ res_status (submitAnswer 7 [active_quiz] "ABC123" (Some "u2") 0 (Some "a")).2 = 200
    ∧ jfield "correct"
        (res_body (submitAnswer 7 [active_quiz] "ABC123" (Some "u2") 0 (Some "a")).2)
      = Some (JBool correct)
    ∧ (correct = true ↔ Some "a" = Question.correctAnswer question).
Proof.
  apply (submitAnswer_index_and_flag 7 [active_quiz] "ABC123" (Some "u2") 0 (Some "a")
           0%nat active_quiz); reflexivity.
Defined.

(** ** Scores *)

Lemma above_snoc score scores e :
  Score.score e = score → above score (scores ++ [e]) = above score scores.
Proof.
  intros He. unfold above. rewrite filter_app, length_app.
  rewrite filter_cons_False, filter_nil by lia. cbn. lia.
Qed.

Lemma submit_found now s code userId score i quiz :
  Quiz.findOne code s = Some (i, quiz) →
  submit now s code userId score =
    (Quiz.save i (Quiz.set_scores (Quiz.scores quiz ++ [Score.mk userId score now]) quiz) s,
     respond 200 (obj [("message", Some (JStr "Score submitted successfully"));
                       ("currentRank", Some (JNum (above score (Quiz.scores quiz) + 1)))])).
Proof.
  intros Hfind. unfold submit. rewrite Hfind. cbn [Quiz.scores Quiz.set_scores].
  fold (above score (Quiz.scores quiz ++ [Score.mk userId score now])).
  by rewrite above_snoc.
Qed.

(** C7.  On an existing quiz, [POST /submit] answers with [currentRank]
    equal to one plus the number of entries that the score list held before
    the submission and whose score is strictly greater than the submitted
    one: 80 after 90 and 70 is ranked 2. *)
Theorem submit_currentRank now s code userId score i quiz :
  Quiz.findOne code s = Some (i, quiz) →
  let r := (submit now s code userId score).2 in
  res_status r = 200
  ∧ jfield "currentRank" (res_body r) = Some (JNum (1 + above score (Quiz.scores quiz))).
Proof.
  intros Hfind r. subst r. rewrite (submit_found _ _ _ _ _ _ _ Hfind).
  split; [done|]. cbn. by rewrite Z.add_comm.
Qed.

Lemma submit_currentRank_witness :
  Score.score <$> Quiz.scores scored_quiz = [90; 70]
  ∧ res_status (submit 3 [scored_quiz] "ABC123" (Some "u4") 80).2 = 200
  ∧ jfield "currentRank" (res_body (submit 3 [scored_quiz] "ABC123" (Some "u4") 80).2)
    = Some (JNum 2).
Proof.
  split; [reflexivity|].
  apply (submit_currentRank 3 [scored_quiz] "ABC123" (Some "u4") 80 0%nat scored_quiz).
  reflexivity.
Defined.

(** C10.  [POST /submit] does not look at the status: on every existing
    quiz it appends the entry to the score list and answers 200 with a
    rank.  [POST /submit-answer] does: it is refused with 400 "Quiz is not
    active" exactly when the status differs from [active]. *)
Theorem submit_ignores_status now s code userId score i quiz :
  Quiz.findOne code s = Some (i, quiz) →
  (∃ rank,
     submit now s code userId score =
       (Quiz.save i
          (Quiz.set_scores (Quiz.scores quiz ++ [Score.mk userId score now]) quiz) s,
        respond 200 (obj [("message", Some (JStr "Score submitted successfully"));
                          ("currentRank", Some (JNum rank))])))
  ∧ (∀ questionIndex answer,
       submitAnswer now s code userId questionIndex answer =
         (s, error 400 "Quiz is not active")
       ↔ Quiz.status quiz ≠ "active").
Proof.
  intros Hfind. split.
  - eexists. by apply submit_found.
  - intros questionIndex answer. unfold submitAnswer. rewrite Hfind.
    case_bool_decide as Hstatus; [done|].
    split; [|done]. by destruct (js_index _ _).
Qed.

Lemma submit_ignores_status_witness :
  Quiz.status pending_quiz = "pending"
  ∧ (∃ rank,
       submit 3 [pending_quiz] "ABC123" (Some "u2") 10 =
         ([Quiz.set_scores [Score.mk (Some "u2") 10 3] pending_quiz],
          respond 200 (obj [("message", Some (JStr "Score submitted successfully"));
                            ("currentRank", Some (JNum rank))])))
  ∧ (∀ questionIndex answer,
       submitAnswer 3 [pending_quiz] "ABC123" (Some "u2") questionIndex answer =
         ([pending_quiz], error 400 "Quiz is not active")
       ↔ Quiz.status pending_quiz ≠ "active").
Proof.
  split; [reflexivity|].
  apply (submit_ignores_status 3 [pending_quiz] "ABC123" (Some "u2") 10 0%nat pending_quiz).
  reflexivity.
Defined.

(** ** Joining *)






Lemma R2_join_found s code userId i quiz :
  Quiz.findOne code s = Some (i, quiz) →
  Quiz.status quiz = "waiting" →
  R2.join s code userId =
    if bool_decide (Participant.Id userId ∈ Quiz.participants quiz)
    then (s, R2.joined quiz)
    else
      let quiz' :=
        Quiz.set_participants (Quiz.participants quiz ++ [Participant.Id userId]) quiz in
      (Quiz.save i quiz' s, R2.joined quiz').
Proof.
  intros Hfind Hstatus. unfold R2.join. rewrite Hfind.
  by rewrite (bool_decide_eq_false_2 (Quiz.status quiz ≠ "waiting")) by (by intros ?).
Qed.




(** ** The leaderboard *)

Lemma sort_insert_perm {A} (compare : A → A → Z) x l :
  sort_insert compare x l ≡ₚ x :: l.
Proof.
  induction l as [|y l IH]; [done|]. cbn.
  case_match; [done|]. rewrite IH. apply Permutation_swap.
Qed.

Lemma sort_perm {A} (compare : A → A → Z) l : sort compare l ≡ₚ l.
Proof.
  induction l as [|x l IH]; [done|]. cbn.
  by rewrite sort_insert_perm, IH.
Qed.

Lemma sort_insert_by_score_hd e x l :
  score_ge e x → HdRel score_ge e l → HdRel score_ge e (sort_insert by_score x l).
Proof.
  intros Hx Hl. destruct l as [|y l]; cbn; [by constructor|].
  case_match; constructor; [done|]. by inversion Hl.
Qed.

Lemma sort_insert_by_score_sorted x l :
  Sorted score_ge l → Sorted score_ge (sort_insert by_score x l).
Proof.
  induction 1 as [|y l Hsorted IH Hhd]; cbn; [by repeat constructor|].
  destruct (Z.leb_spec (by_score x y) 0) as [Hle|Hgt].
  - constructor; [by constructor|]. constructor. unfold by_score, score_ge in *. lia.
  - constructor; [done|]. apply sort_insert_by_score_hd; [|done].
    unfold by_score, score_ge in *. lia.
Qed.

Lemma sort_by_score_sorted l : Sorted score_ge (sort by_score l).
Proof.
  induction l as [|x l IH]; [constructor|]. by apply sort_insert_by_score_sorted.
Qed.

Lemma ranked_rank index e :
  jfield "rank" (ranked index e) = Some (JNum (Z.of_nat index + 1))
  ∧ jfield "score" (ranked index e) = Some (JNum (Score.score e)).
Proof. destruct e as [[u|] sc t]; done. Qed.

(** C8.  On an existing quiz, [GET /leaderboard/:code] answers with the
    entries of the score list in descending order of score, the entry at
    position [k] carrying [rank = k + 1]; after three users have submitted
    50, 90 and 70 they are ranked 3, 1 and 2. *)
Theorem leaderboard_sorted_and_ranked :
  (∀ s code i quiz,
     Quiz.findOne code s = Some (i, quiz) →
     ∃ sorted,
       leaderboard s code = (s, respond 200 (JArr (imap ranked sorted)))
       ∧ sorted ≡ₚ Quiz.scores quiz
       ∧ Sorted score_ge sorted
       ∧ ∀ k e, sorted !! k = Some e →
           jfield "rank" (ranked k e) = Some (JNum (Z.of_nat k + 1))
           ∧ jfield "score" (ranked k e) = Some (JNum (Score.score e)))
  ∧ (let body := res_body (leaderboard three_scores "ABC123").2 in
     rank_of "u2" body = Some (JNum 3)
     ∧ rank_of "u3" body = Some (JNum 1)
     ∧ rank_of "u4" body = Some (JNum 2)).
Proof.
  split; [|by vm_compute].
  intros s code i quiz Hfind. exists (sort by_score (Quiz.scores quiz)).
  split_and!.
  - unfold leaderboard. by rewrite Hfind.
  - apply sort_perm.
  - apply sort_by_score_sorted.
  - intros k e _. apply ranked_rank.
Qed.

Lemma leaderboard_sorted_and_ranked_witness :
  ∃ sorted,
    leaderboard three_scores "ABC123" =
      (three_scores, respond 200 (JArr (imap ranked sorted)))
    ∧ sorted ≡ₚ [Score.mk (Some "u2") 50 1; Score.mk (Some "u3") 90 2;
                 Score.mk (Some "u4") 70 3]
    ∧ Sorted score_ge sorted
    ∧ ∀ k e, sorted !! k = Some e →
        jfield "rank" (ranked k e) = Some (JNum (Z.of_nat k + 1))
        ∧ jfield "score" (ranked k e) = Some (JNum (Score.score e)).
Proof.
  apply (proj1 leaderboard_sorted_and_ranked three_scores "ABC123" 0%nat
           (Quiz.set_scores [Score.mk (Some "u2") 50 1; Score.mk (Some "u3") 90 2;
                             Score.mk (Some "u4") 70 3] active_quiz)).
  reflexivity.
Defined.

(** ** Join codes *)

Lemma round53_nonneg n : 0 ≤ n → 0 ≤ Double.round53 n.
Proof.
  intros Hn. unfold Double.round53. case_match; [done|].
  assert (0 < 2 ^ (Z.log2 n - 52)) by (apply Z.pow_pos_nonneg; lia).
  assert (0 ≤ n / 2 ^ (Z.log2 n - 52)) by (apply Z.div_pos; lia).
  case_match; nia.
Qed.

(** Rounding moves a number up by at most half a unit in the last place. *)
Lemma round53_upper n : 0 ≤ n < 2 ^ 59 → Double.round53 n ≤ n + 32.
Proof.
  intros [Hn Hlt]. unfold Double.round53.
  destruct (Z.leb_spec (Z.log2 n - 52) 0) as [|Hs]; [lia|].
  assert (Z.log2 n < 59) as Hlog by (apply Z.log2_lt_pow2; [|done]; destruct n; done).
  set (s := Z.log2 n - 52) in *.
  assert (2 ^ s = 2 * 2 ^ (s - 1)) as Hpow.
  { rewrite <- Z.pow_succ_r by lia. f_equal. lia. }
  assert (0 < 2 ^ (s - 1) ≤ 32) as Hh.
  { split; [apply Z.pow_pos_nonneg; lia|].
    change 32 with (2 ^ 5). apply Z.pow_le_mono_r; lia. }
  pose proof (Z.div_mod n (2 ^ s)) as Hdiv.
  pose proof (Z.mod_pos_bound n (2 ^ s)) as Hmod.
  destruct (Z.ltb_spec (n `mod` 2 ^ s) (2 ^ (s - 1))); cbn [orb]; [nia|].
  destruct (Z.eqb_spec (n `mod` 2 ^ s) (2 ^ (s - 1))); cbn [andb];
    [destruct (Z.even _)|]; nia.
Qed.

Lemma floor_mul_range d :
  Double.wf d → 0 ≤ Double.floor_mul d 36 < 36.
Proof.
  intros ([Hm0 Hm] & [He0 He] & Hlt). unfold Double.floor_mul.
  assert (0 < 2 ^ Double.expo d) by (apply Z.pow_pos_nonneg; lia).
  split.
  - apply Z.div_pos; [apply round53_nonneg|]; lia.
  - apply Z.div_lt_upper_bound; [done|].
    pose proof (round53_upper (Double.mant d * 36)). lia.
Qed.

Lemma charAt_characters i :
  0 ≤ i < 36 → ∃ c, charAt characters i = String c "" ∧ alnum_upper c = true.
Proof.
  intros Hi. unfold charAt. rewrite (proj2 (Z.ltb_ge _ _)) by lia.
  assert (Z.to_nat i < 36)%nat as Hn by lia.
  generalize dependent (Z.to_nat i). intros n Hn.
  do 36 (destruct n as [|n]; [eexists; split; reflexivity|]). lia.
Qed.

(** The code of revision 1 is a join code, whatever [Math.random()] draws. *)
Lemma generateUniqueCode_join_code random :
  (∀ i, Double.wf (random i)) → join_code (generateUniqueCode random).
Proof.
  intros Hwf. unfold generateUniqueCode. cbn [fold_left seq String.length characters].
  change (Z.of_nat 36) with 36.
  destruct (charAt_characters _ (floor_mul_range _ (Hwf 0%nat))) as (c0 & -> & ?).
  destruct (charAt_characters _ (floor_mul_range _ (Hwf 1%nat))) as (c1 & -> & ?).
  destruct (charAt_characters _ (floor_mul_range _ (Hwf 2%nat))) as (c2 & -> & ?).
  destruct (charAt_characters _ (floor_mul_range _ (Hwf 3%nat))) as (c3 & -> & ?).
  destruct (charAt_characters _ (floor_mul_range _ (Hwf 4%nat))) as (c4 & -> & ?).
  destruct (charAt_characters _ (floor_mul_range _ (Hwf 5%nat))) as (c5 & -> & ?).
  split; [done|]. cbn. by repeat constructor.
Qed.

Lemma generateUniqueCode_join_code_witness : join_code (generateUniqueCode halves).
Proof.
  apply (generateUniqueCode_join_code halves). intros i. by vm_compute.
Defined.

Lemma R1_create_join_code random s title category questions createdBy creatorName :
  (∀ i, Double.wf (random i)) →
  let r := (R1.create random s title category questions createdBy creatorName).2 in
  res_status r = 201 →
  ∃ code, jfield "code" (res_body r) = Some (JStr code) ∧ join_code code.
Proof.
  intros Hwf. unfold R1.create. repeat case_match; try done. intros _.
  eexists. split; [done|]. by apply generateUniqueCode_join_code.
Qed.

Lemma substring_length n m s : (String.length (String.substring n m s) ≤ m)%nat.
Proof.
  revert n m. induction s as [|c s IH]; intros [|n] [|m]; cbn; try lia.
  - specialize (IH 0%nat m). lia.
  - apply (IH n 0%nat).
  - apply IH.
Qed.

Lemma toUpperCase_length s : String.length (toUpperCase s) = String.length s.
Proof. induction s; cbn; congruence. Qed.

(** The code of revision 2 has at most six characters. *)
Lemma randomCode_length random36 : (String.length (randomCode random36) ≤ 6)%nat.
Proof.
  unfold randomCode, substring. rewrite toUpperCase_length.
  apply (substring_length 2 6).
Qed.

(** C3 fails in revision 2.  When [Math.random()] draws one half, whose
    rendering in base 36 is ["0.i"], [POST /create] accepts a valid request
    with 201 and returns the code ["I"], which has one character and so is
    no join code; revision 1 returns six characters on every draw
    ([R1_create_join_code]). *)
Theorem R2_create_short_code :
  let r := (R2.create "0.i" [] (Some "T") (Some "C") (Some [Q1]) (Some "u1")).2 in
  res_status r = 201
  ∧ jfield "code" (res_body r) = Some (JStr "I")
  ∧ ¬ join_code "I".
Proof. split_and!; [done..|]. by intros [? _]. Qed.

(** ** Validation of a new quiz *)

Lemma R2_validate_ill_formed questions :
  Exists ill_formed questions →
  ∃ rejected, R2.validate questions = Some rejected ∧ res_status rejected = 400.
Proof.
  induction 1 as [q rest Hq|q rest _ IH]; cbn [R2.validate].
  - destruct q as [text type options correctAnswer timeLimit]. unfold ill_formed in Hq.
    cbn in *. repeat case_match; eauto.
    all: destruct Hq as [->|[->|[->|[-> Hlen]]]]; cbn in *; try done.
    all: repeat (case_bool_decide || case_match); simplify_eq/=; try done; lia.
  - destruct IH as (rejected & -> & ?). repeat case_match; eauto.
Qed.

(** Revision 2 rejects every request with an ill-formed question and
    stores nothing. *)
Lemma R2_create_rejects random36 s title category questions userId :
  Exists ill_formed questions →
  ∃ rejected,
    R2.create random36 s title category (Some questions) userId = (s, rejected)
    ∧ res_status rejected = 400.
Proof.
  intros (rejected & Hval & Hst)%R2_validate_ill_formed. unfold R2.create.
  rewrite Hval. repeat case_match; eauto.
Qed.

(** C4 fails in revision 1.  Its [POST /create] checks the five fields
    of the request and no question: a request whose only question lacks
    its text and offers a single option to a multiple choice is answered
    201 and the quiz is stored; revision 2 rejects it
    ([R2_create_rejects]). *)
Theorem R1_create_stores_ill_formed_question :
  ill_formed bad_question
  ∧ ∀ random s,
      R1.create random s (Some "T") (Some "C") (Some [bad_question]) (Some "u1")
        (Some "Alice") =
        (s ++ [Quiz.mk (generateUniqueCode random) "T" "C"
                 [Question.mk None (Some "multiple") (Some ["A"]) (Some "A") (Some 30)]
                 (Some "u1") (Some "Alice") "pending" [] [] None None],
         respond 201 (obj [("success", Some (JBool true));
                           ("code", Some (JStr (generateUniqueCode random)));
                           ("message", Some (JStr "Quiz created successfully"))])).
Proof. split; [by left|done]. Qed.

(** ** What a request does to the collection *)

Lemma new_question_created q :
  is_Some (Question.options (new_question q))
  ∧ ∃ n, Question.timeLimit (new_question q) = Some n ∧ n ≠ 0.
Proof.
  split; [by eexists|]. eexists. split; [done|].
  unfold num_or. destruct (Question.timeLimit q) as [n|]; [|done].
  by destruct (Z.eqb_spec n 0).
Qed.

Lemma find_participant_None userId (l : list Participant.t) :
  List.find (λ p, bool_decide (Participant.userId p = Some userId)) l = None →
  inl userId ∉ participant_key <$> l.
Proof.
  intros Hfind [p [Hkey Hp]]%list_elem_of_fmap.
  destruct p as [u n sc|u]; [|done]. injection Hkey as ->.
  apply list_elem_of_In in Hp.
  pose proof (find_none _ _ Hfind _ Hp) as Hno. cbn in Hno.
  by rewrite bool_decide_eq_true_2 in Hno.
Qed.

Lemma Id_not_elem userId (l : list Participant.t) :
  Participant.Id userId ∉ l → inr userId ∉ participant_key <$> l.
Proof.
  intros Hno [p [Hkey Hp]]%list_elem_of_fmap.
  destruct p as [u n sc|u]; [done|]. by injection Hkey as ->.
Qed.

Lemma upper_idem c : upper (upper c) = upper c.
Proof. by destruct c as [[] [] [] [] [] [] [] []]. Qed.

Lemma toUpperCase_idem s : toUpperCase (toUpperCase s) = toUpperCase s.
Proof. induction s as [|c s IH]; [done|]. cbn. by rewrite upper_idem, IH. Qed.

Lemma toUpperCase_app s t : toUpperCase (s +:+ t) = toUpperCase s +:+ toUpperCase t.
Proof. induction s as [|c s IH]; [done|]. simpl. by rewrite IH. Qed.

Lemma toUpperCase_charAt i : toUpperCase (charAt characters i) = charAt characters i.
Proof.
  unfold charAt. destruct (i <? 0); [done|].
  generalize (Z.to_nat i). intros n.
  do 36 (destruct n as [|n]; [done|]). done.
Qed.

(** The code of revision 1 is in upper case whatever the draws are. *)
Lemma toUpperCase_generateUniqueCode random :
  toUpperCase (generateUniqueCode random) = generateUniqueCode random.
Proof.
  unfold generateUniqueCode. cbn [fold_left seq].
  by rewrite !toUpperCase_app, !toUpperCase_charAt.
Qed.

Lemma R1_create_effect random s title category questions createdBy creatorName :
  effect s (R1.create random s title category questions createdBy creatorName).1.
Proof.
  unfold R1.create. repeat case_match; try constructor.
  split_and!; try done; [apply toUpperCase_generateUniqueCode|by left|].
  apply Forall_fmap, Forall_forall. intros q _. apply new_question_created.
Qed.

Lemma R2_create_effect random36 s title category questions userId :
  effect s (R2.create random36 s title category questions userId).1.
Proof.
  unfold R2.create. repeat case_match; try constructor.
  split_and!; try done; [apply toUpperCase_idem|by right|].
  apply Forall_fmap, Forall_forall. intros q _. apply new_question_created.
Qed.

Lemma R1_join_effect s code userId username :
  effect s (R1.join s code userId username).1.
Proof.
  unfold R1.join, Quiz.findOneAndUpdate.
  destruct (truthy code) as [c|]; [|constructor].
  destruct (truthy userId) as [u|]; [|constructor].
  destruct (truthy username) as [n|]; [|constructor].
  destruct (Quiz.findOne c s) as [[i quiz]|] eqn:Hfind; [|constructor].
  case_bool_decide as Hstatus; [constructor|].
  destruct (List.find _ _) eqn:Hp; [constructor|]. cbn [fst].
  apply findOne_Some in Hfind as [Hi _].
  eapply effect_update; [done|]. constructor.
  - by rewrite Hstatus.
  - by apply find_participant_None.
Qed.

Lemma R2_join_effect s code userId : effect s (R2.join s code userId).1.
Proof.
  unfold R2.join.
  destruct (Quiz.findOne code s) as [[i quiz]|] eqn:Hfind; [|constructor].
  case_bool_decide as Hstatus; [constructor|].
  case_bool_decide as Hin; [constructor|]. cbn [fst].
  apply findOne_Some in Hfind as [Hi _].
  eapply effect_update; [done|]. constructor.
  - by rewrite Hstatus.
  - by apply Id_not_elem.
Qed.

Lemma R1_start_effect now s code creatorName :
  effect s (R1.start now s code creatorName).1.
Proof.
  unfold R1.start.
  destruct (truthy code) as [c|]; [|constructor].
  destruct (truthy creatorName) as [n|]; [|constructor].
  destruct (Quiz.findOne c s) as [[i quiz]|] eqn:Hfind; [|constructor].
  repeat (case_bool_decide; [constructor|]).
  destruct (Z.ltb_spec (Z.of_nat (length (Quiz.participants quiz))) 1); [constructor|].
  cbn [fst]. apply findOne_Some in Hfind as [Hi _].
  eapply effect_update; [done|]. constructor. by destruct (Quiz.participants quiz).
Qed.

Lemma R2_start_effect now s code userId : effect s (R2.start now s code userId).1.
Proof.
  unfold R2.start.
  destruct (Quiz.findOne code s) as [[i quiz]|] eqn:Hfind; [|constructor].
  case_bool_decide; [constructor|].
  case_bool_decide as Hempty; [constructor|].
  cbn [fst]. apply findOne_Some in Hfind as [Hi _].
  eapply effect_update; [done|]. constructor. by destruct (Quiz.participants quiz).
Qed.

Lemma submitAnswer_effect now s code userId questionIndex answer :
  effect s (submitAnswer now s code userId questionIndex answer).1.
Proof.
  unfold submitAnswer.
  destruct (Quiz.findOne code s) as [[i quiz]|] eqn:Hfind; [|constructor].
  case_bool_decide as Hstatus; [constructor|].
  destruct (js_index _ _) as [question|] eqn:Hq; [|constructor].
  cbn [fst]. apply findOne_Some in Hfind as [Hi _].
  eapply effect_update; [done|]. by constructor.
Qed.

Lemma submit_effect now s code userId score : effect s (submit now s code userId score).1.
Proof.
  unfold submit.
  destruct (Quiz.findOne code s) as [[i quiz]|] eqn:Hfind; [|constructor].
  cbn [fst]. apply findOne_Some in Hfind as [Hi _].
  eapply effect_update; [done|]. constructor.
Qed.

Lemma handle_effect r s : effect s (handle r s).1.
Proof.
  destruct r; cbn [handle];
    auto using R1_create_effect, R2_create_effect, R1_join_effect, R2_join_effect,
      R1_start_effect, R2_start_effect, submitAnswer_effect, submit_effect.
  - unfold R1.get. case_match; [case_match|]; constructor.
  - unfold R1.admin. repeat case_match; constructor.
  - unfold R2.get. case_match; [case_match|]; constructor.
  - unfold R2.admin. repeat case_match; constructor.
  - constructor.
  - unfold leaderboard. case_match; [case_match|]; constructor.
Qed.

(** ** Invariants of the collection *)

Lemma evolves_refl q : evolves q q.
Proof. by split; auto. Qed.

Lemma evolves_trans q1 q2 q3 : evolves q1 q2 → evolves q2 q3 → evolves q1 q3.
Proof.
  intros [] []. split; try congruence; try (by etrans); [|by auto].
  destruct evolves_status1 as [->|]; [done|by right].
Qed.

Lemma update_evolves q q' : update q q' → evolves q q'.
Proof.
  destruct 1; split; cbn; auto; try done; try (by eexists).
Qed.

Lemma update_coherent q q' : coherent q → update q q' → coherent q'.
Proof.
  intros [Hdistinct Hstarted] Hupdate.
  destruct Hupdate as [p Hstatus Hnew|now Hsome|userId questionIndex answer now question Hactive Hq|e].
  - split; cbn; [|intros Hactive; by destruct Hstatus].
    rewrite fmap_app. apply NoDup_app. split_and!; [done| |by apply NoDup_singleton].
    intros k Hk ->%list_elem_of_singleton. done.
  - by split.
  - by split.
  - by split.
Qed.

Lemma created_coherent q : created q → coherent q.
Proof.
  intros (_ & Hstatus & Hp & _). split; rewrite ?Hp; cbn.
  - constructor.
  - intros Hactive. destruct Hstatus as [Hs|Hs]; by rewrite Hs in Hactive.
Qed.

Lemma effect_evolves s s' j q :
  effect s s' → s !! j = Some q → ∃ q', s' !! j = Some q' ∧ evolves q q'.
Proof.
  intros [|new Hnew|i qi qi' Hi Hupdate] Hj.
  - eauto using evolves_refl.
  - exists q. split; [by apply lookup_app_l_Some|apply evolves_refl].
  - destruct (decide (i = j)) as [->|Hne].
    + exists qi'. simplify_eq. split; [|by apply update_evolves].
      apply list_lookup_insert_eq. by eapply lookup_lt_Some.
    + exists q. split; [by rewrite list_lookup_insert_ne|apply evolves_refl].
Qed.

Lemma effect_coherent s s' : effect s s' → Forall coherent s → Forall coherent s'.
Proof.
  intros [|new Hnew|i qi qi' Hi Hupdate] Hs.
  - done.
  - apply Forall_app. split; [done|]. by apply Forall_singleton, created_coherent.
  - apply Forall_insert; [done|]. eapply update_coherent; [|done].
    by eapply Forall_lookup_1.
Qed.

Lemma serve_cons r rs s : serve (r :: rs) s = serve rs (handle r s).1.
Proof. reflexivity. Qed.

Lemma serve_evolves rs s j q :
  s !! j = Some q → ∃ q', serve rs s !! j = Some q' ∧ evolves q q'.
Proof.
  revert s q. induction rs as [|r rs IH]; intros s q Hj.
  - eauto using evolves_refl.
  - rewrite serve_cons.
    destruct (effect_evolves _ _ _ _ (handle_effect r s) Hj) as (q1 & Hj1 & Hev1).
    destruct (IH _ _ Hj1) as (q' & Hj' & Hev'). eauto using evolves_trans.
Qed.

(** X1.  No sequence of requests removes a quiz or moves it, and none
    rewrites its code, title, category, questions or creator identity. *)
Theorem quiz_identity_is_fixed rs s j q :
  s !! j = Some q →
  ∃ q', serve rs s !! j = Some q'
    ∧ Quiz.code q' = Quiz.code q
    ∧ Quiz.title q' = Quiz.title q
    ∧ Quiz.category q' = Quiz.category q
    ∧ Quiz.questions q' = Quiz.questions q
    ∧ Quiz.createdBy q' = Quiz.createdBy q
    ∧ Quiz.creatorName q' = Quiz.creatorName q.
Proof.
  intros Hj. destruct (serve_evolves rs _ _ _ Hj) as (q' & Hj' & []).
  exists q'. by split_and!.
Qed.

Lemma quiz_identity_is_fixed_witness :
  ∃ q', serve session [pending_quiz] !! 0%nat = Some q'
    ∧ Quiz.code q' = Quiz.code pending_quiz
    ∧ Quiz.title q' = Quiz.title pending_quiz
    ∧ Quiz.category q' = Quiz.category pending_quiz
    ∧ Quiz.questions q' = Quiz.questions pending_quiz
    ∧ Quiz.createdBy q' = Quiz.createdBy pending_quiz
    ∧ Quiz.creatorName q' = Quiz.creatorName pending_quiz.
Proof.
  apply (quiz_identity_is_fixed session [pending_quiz] 0%nat pending_quiz). reflexivity.
Defined.

(** X2.  Over any sequence of requests the status of a stored quiz
    either stays or becomes [active], and never leaves [active]; its
    participants, scores and answers only grow at the end. *)
Theorem quiz_state_only_advances rs s j q :
  s !! j = Some q →
  ∃ q', serve rs s !! j = Some q'
    ∧ (Quiz.status q' = Quiz.status q ∨ Quiz.status q' = "active")
    ∧ (Quiz.status q = "active" → Quiz.status q' = "active")
    ∧ Quiz.participants q `prefix_of` Quiz.participants q'
    ∧ Quiz.scores q `prefix_of` Quiz.scores q'
    ∧ arr_or (Quiz.answers q) `prefix_of` arr_or (Quiz.answers q').
Proof.
  intros Hj. destruct (serve_evolves rs _ _ _ Hj) as (q' & Hj' & []).
  exists q'. by split_and!.
Qed.

Lemma quiz_state_only_advances_witness :
  ∃ q', serve session [pending_quiz] !! 0%nat = Some q'
    ∧ (Quiz.status q' = Quiz.status pending_quiz ∨ Quiz.status q' = "active")
    ∧ (Quiz.status pending_quiz = "active" → Quiz.status q' = "active")
    ∧ Quiz.participants pending_quiz `prefix_of` Quiz.participants q'
    ∧ Quiz.scores pending_quiz `prefix_of` Quiz.scores q'
    ∧ arr_or (Quiz.answers pending_quiz) `prefix_of` arr_or (Quiz.answers q').
Proof.
  apply (quiz_state_only_advances session [pending_quiz] 0%nat pending_quiz). reflexivity.
Defined.

Lemma findOne_serve rs s code i q :
  Quiz.findOne code s = Some (i, q) →
  ∃ q', Quiz.findOne code (serve rs s) = Some (i, q') ∧ evolves q q'.
Proof.
  unfold Quiz.findOne. rewrite list_find_Some. intros (Hi & Hcode & Hfirst).
  destruct (serve_evolves rs _ _ _ Hi) as (q' & Hi' & Hev).
  exists q'. split; [|done]. apply list_find_Some. split_and!; [done| |].
  - by rewrite (evolves_code _ _ Hev).
  - intros j y' Hj' Hlt.
    destruct (lookup_lt_is_Some_2 s j) as [y Hj].
    { apply lookup_lt_Some in Hi. lia. }
    destruct (serve_evolves rs _ _ _ Hj) as (y'' & Hj'' & Hev'). simplify_eq.
    rewrite (evolves_code _ _ Hev'). by eapply Hfirst.
Qed.

(** X3.  A code keeps designating the quiz it designates: whatever
    requests follow, creations with a colliding code included, the lookup
    of the code finds the same document at the same position. *)
Theorem code_keeps_its_quiz rs s code i q :
  Quiz.findOne code s = Some (i, q) →
  ∃ q', Quiz.findOne code (serve rs s) = Some (i, q') ∧ evolves q q'.
Proof. apply findOne_serve. Qed.

Lemma code_keeps_its_quiz_witness :
  ∃ q', Quiz.findOne "ABC123" (serve session [pending_quiz]) = Some (0%nat, q')
    ∧ evolves pending_quiz q'.
Proof.
  apply (code_keeps_its_quiz session [pending_quiz] "ABC123" 0%nat pending_quiz).
  reflexivity.
Defined.

Lemma serve_coherent rs s : Forall coherent s → Forall coherent (serve rs s).
Proof.
  revert s. induction rs as [|r rs IH]; intros s Hs; [done|].
  rewrite serve_cons. apply IH. eapply effect_coherent; [apply handle_effect|done].
Qed.

(** X4.  Every collection reached from the empty one is coherent: the
    participants of a quiz are distinct, and an active quiz has at least
    one participant. *)
Theorem reachable_collections_are_coherent rs : Forall coherent (serve rs []).
Proof. by apply serve_coherent. Qed.

(** X5.  Once a quiz is active, joining it is refused for ever: after
    any further requests both revisions answer 400 "Quiz has already
    started" and store nothing. *)
Theorem join_is_refused_once_active rs s code userId username i q :
  code ≠ "" → userId ≠ "" → username ≠ "" →
  Quiz.findOne code s = Some (i, q) →
  Quiz.status q = "active" →
  R1.join (serve rs s) (Some code) (Some userId) (Some username) =
    (serve rs s, error 400 "Quiz has already started")
  ∧ R2.join (serve rs s) code userId =
    (serve rs s, error 400 "Quiz has already started").
Proof.
  intros Hcode Huser Hname Hfind Hactive.
  destruct (findOne_serve rs _ _ _ _ Hfind) as (q' & Hfind' & Hev).
  pose proof (evolves_active _ _ Hev Hactive) as Hactive'.
  unfold R1.join, R2.join. rewrite !truthy_intro, Hfind', Hactive' by done.
  done.
Qed.

Lemma join_is_refused_once_active_witness :
  R1.join (serve session [active_quiz]) (Some "ABC123") (Some "u5") (Some "Eve") =
    (serve session [active_quiz], error 400 "Quiz has already started")
  ∧ R2.join (serve session [active_quiz]) "ABC123" "u5" =
    (serve session [active_quiz], error 400 "Quiz has already started").
Proof.
  apply (join_is_refused_once_active session [active_quiz] "ABC123" "u5" "Eve"
           0%nat active_quiz); done.
Defined.

(** ** Creating a quiz *)

Lemma falsy_truthy o : falsy o = false ↔ is_Some (truthy o).
Proof.
  unfold falsy, truthy. destruct o as [s|].
  - case_bool_decide; split; intros Hs; try done; by destruct Hs.
  - split; intros Hs; [done|by destruct Hs].
Qed.

Lemma R2_validate_None questions :
  R2.validate questions = None ↔ Forall accepted questions.
Proof.
  induction questions as [|q rest IH]; [by split|].
  cbn [R2.validate]. rewrite Forall_cons, <- IH. unfold accepted.
  rewrite <- !falsy_truthy.
  destruct (falsy (Question.text q)), (falsy (Question.type q)),
    (falsy (Question.correctAnswer q)); cbn [orb]; try (split; [done|intuition congruence]).
  case_bool_decide as Htype; cbn [andb].
  - destruct (Question.options q) as [options|] eqn:Hopt.
    + destruct (Z.ltb_spec (Z.of_nat (length options)) 2).
      * split; [done|]. intros [(_ & _ & _ & Hmul) _].
        destruct (Hmul Htype) as (o & [= <-] & ?). lia.
      * split; [|tauto]. intros Hrest. split_and!; try done.
        intros _. exists options. split; [done|lia].
    + split; [done|]. intros [(_ & _ & _ & Hmul) _].
      by destruct (Hmul Htype) as (o & ? & ?).
  - split; [|tauto]. intros Hrest. by split_and!.
Qed.

(** X6.  [POST /create] of revision 2 answers 201 exactly when title and
    category are present and not empty, the question list is present and
    not empty, and every question is accepted; in every other case it
    answers 400 and stores nothing. *)
Theorem R2_create_accepts_exactly random36 s title category questions userId :
  let r := R2.create random36 s title category questions userId in
  (res_status r.2 = 201 ↔
     is_Some (truthy title) ∧ is_Some (truthy category)
     ∧ ∃ qs, questions = Some qs ∧ qs ≠ [] ∧ Forall accepted qs)
  ∧ (res_status r.2 = 201 ∨ res_status r.2 = 400 ∧ r.1 = s).
Proof.
  unfold R2.create.
  destruct (truthy title) as [t|], (truthy category) as [c|], questions as [qs|];
    try (split; [split; [done|]|by right]; intros (Ht & Hc & qs' & ? & _);
         by (destruct Ht || destruct Hc)).
  case_bool_decide as Hempty.
  { split; [split; [done|]|by right]. intros (_ & _ & qs' & [= <-] & Hne & _).
    by destruct qs. }
  destruct (R2.validate qs) as [rejected|] eqn:Hval.
  - assert (res_status rejected = 400) as Hst.
    { clear Hempty. induction qs as [|q rest IH]; [done|]. cbn in Hval.
      repeat case_match; simplify_eq; auto. }
    cbn [fst snd]. rewrite Hst. split; [split; [done|]|by right].
    intros (_ & _ & qs' & [= <-] & _ & Hacc). apply R2_validate_None in Hacc. congruence.
  - cbn [fst snd]. split; [|by left]. split; [|done]. intros _.
    split_and!; [done..|]. exists qs. split_and!; [done| |by apply R2_validate_None].
    by destruct qs.
Qed.

(** X7.  [POST /create] of revision 1 answers 201 exactly when title,
    category, [createdBy] and [creatorName] are present and not empty and a
    question list is present, be it empty or ill-formed; in every other
    case it answers 400 "Missing required fields" and stores nothing. *)
Theorem R1_create_accepts_exactly random s title category questions createdBy creatorName :
  let r := R1.create random s title category questions createdBy creatorName in
  (res_status r.2 = 201 ↔
     is_Some (truthy title) ∧ is_Some (truthy category) ∧ is_Some questions
     ∧ is_Some (truthy createdBy) ∧ is_Some (truthy creatorName))
  ∧ (res_status r.2 = 201 ∨ r = (s, error 400 "Missing required fields")).
Proof.
  unfold R1.create.
  destruct (truthy title), (truthy category), questions, (truthy createdBy),
    (truthy creatorName); cbn [fst snd];
    (split; [split; [done|]|auto]); try (by intros (?&?&?&?&?)); try by intros [[]?].
  all: intros (H1 & H2 & H3 & H4 & H5); by (destruct H1 || destruct H2 || destruct H3 || destruct H4 || destruct H5).
Qed.

Lemma findOne_insert code s q :
  Quiz.findOne code (s ++ [q]) =
    match Quiz.findOne code s with
    | Some found => Some found
    | None => if decide (Quiz.code q = code) then Some (length s, q) else None
    end.
Proof.
  unfold Quiz.findOne.
  destruct (list_find _ s) as [[i old]|] eqn:Hfind.
  - by apply list_find_app_l.
  - rewrite list_find_app_r by done. cbn. by case_decide.
Qed.

Lemma R2_validate_status questions rejected :
  R2.validate questions = Some rejected → res_status rejected = 400.
Proof.
  induction questions as [|q rest IH]; [done|]. cbn [R2.validate].
  repeat case_match; intros; simplify_eq; auto.
Qed.

Lemma stored_as_new_question qs : Forall2 stored_as qs (new_question <$> qs).
Proof.
  apply Forall2_fmap_r, Forall_Forall2_diag, Forall_forall. by intros q _.
Qed.

(** X8.  A successful [POST /create] adds one quiz at the end of the
    collection: it waits for its start, has no participant and no score,
    and holds one question per question of the request, with the text,
    type, correct answer and options that were sent.  The code it returns
    designates that quiz if no stored quiz had the code; otherwise it goes
    on designating the older quiz, as codes are not checked against the
    collection. *)
Theorem create_then_lookup :
  (∀ random s title category questions createdBy creatorName,
     let r := R1.create random s title category questions createdBy creatorName in
     res_status r.2 = 201 →
     ∃ code quiz qs,
       jfield "code" (res_body r.2) = Some (JStr code)
       ∧ r.1 = s ++ [quiz]
       ∧ Quiz.code quiz = code
       ∧ Some (Quiz.title quiz) = truthy title
       ∧ Some (Quiz.category quiz) = truthy category
       ∧ Quiz.status quiz = "pending"
       ∧ Quiz.participants quiz = []
       ∧ Quiz.scores quiz = []
       ∧ questions = Some qs
       ∧ Forall2 stored_as qs (Quiz.questions quiz)
       ∧ Quiz.findOne code r.1 =
           match Quiz.findOne code s with
           | Some older => Some older
           | None => Some (length s, quiz)
           end)
  ∧ (∀ random36 s title category questions userId,
       let r := R2.create random36 s title category questions userId in
       res_status r.2 = 201 →
       ∃ code quiz qs,
         jfield "code" (res_body r.2) = Some (JStr code)
         ∧ r.1 = s ++ [quiz]
         ∧ Quiz.code quiz = code
         ∧ Some (Quiz.title quiz) = truthy title
         ∧ Some (Quiz.category quiz) = truthy category
         ∧ Quiz.status quiz = "waiting"
         ∧ Quiz.participants quiz = []
         ∧ Quiz.scores quiz = []
         ∧ questions = Some qs
         ∧ Forall2 stored_as qs (Quiz.questions quiz)
         ∧ Quiz.findOne code r.1 =
             match Quiz.findOne code s with
             | Some older => Some older
             | None => Some (length s, quiz)
             end).
Proof.
  split.
  - intros random s title category questions createdBy creatorName r Hok.
    subst r. revert Hok. unfold R1.create.
    repeat case_match; try done. cbn [fst snd]. intros _.
    eexists _, _, _. split_and!; try done; [apply stored_as_new_question|].
    unfold Quiz.insert. rewrite (findOne_insert _ s). by rewrite decide_True.
  - intros random36 s title category questions userId r Hok.
    subst r. revert Hok. unfold R2.create.
    repeat case_match; try done; cbn [fst snd].
    { intros Hok. erewrite R2_validate_status in Hok; done. }
    intros _.
    eexists _, _, _. split_and!; try done; [apply stored_as_new_question|].
    unfold Quiz.insert. rewrite (findOne_insert _ s). by rewrite decide_True.
Qed.

Lemma create_then_lookup_witness :
  ∃ code quiz qs,
    jfield "code"
      (res_body (R1.create halves [] (Some "T") (Some "C") (Some [Q1]) (Some "u1")
                   (Some "Alice")).2) = Some (JStr code)
    ∧ (R1.create halves [] (Some "T") (Some "C") (Some [Q1]) (Some "u1")
         (Some "Alice")).1 = [] ++ [quiz]
    ∧ Quiz.code quiz = code
    ∧ Some (Quiz.title quiz) = truthy (Some "T")
    ∧ Some (Quiz.category quiz) = truthy (Some "C")
    ∧ Quiz.status quiz = "pending"
    ∧ Quiz.participants quiz = []
    ∧ Quiz.scores quiz = []
    ∧ Some [Q1] = Some qs
    ∧ Forall2 stored_as qs (Quiz.questions quiz)
    ∧ Quiz.findOne code
        (R1.create halves [] (Some "T") (Some "C") (Some [Q1]) (Some "u1")
           (Some "Alice")).1 =
        match Quiz.findOne code [] with
        | Some older => Some older
        | None => Some (0%nat, quiz)
        end.
Proof.
  apply (proj1 create_then_lookup halves [] (Some "T") (Some "C") (Some [Q1])
           (Some "u1") (Some "Alice")).
  reflexivity.
Defined.

Lemma R1_create_ok random s title category questions createdBy creatorName :
  res_status (R1.create random s title category questions createdBy creatorName).2 = 201 →
  ∃ t c qs cb cn,
    truthy title = Some t ∧ truthy category = Some c ∧ questions = Some qs
    ∧ truthy createdBy = Some cb ∧ truthy creatorName = Some cn
    ∧ (R1.create random s title category questions createdBy creatorName).1 =
        s ++ [Quiz.mk (generateUniqueCode random) t c (new_question <$> qs)
                (Some cb) (Some cn) "pending" [] [] None None].
Proof.
  unfold R1.create. repeat case_match; try done. intros _.
  by eexists _, _, _, _, _.
Qed.

(** ** Joining and starting *)

(** X10.  In revision 2, on a quiz that waits for its start, the first
    join of a user id is answered 200, appends the id as the last
    participant, raises the participant count by one and reports the new
    count. *)
Theorem first_join_adds_one_participant s code userId i quiz :
  Quiz.findOne code s = Some (i, quiz) →
  Quiz.status quiz = "waiting" →
  Participant.Id userId ∉ Quiz.participants quiz →
  let r := R2.join s code userId in
  res_status r.2 = 200
  ∧ (∃ quiz', Quiz.findOne code r.1 = Some (i, quiz')
       ∧ Quiz.participants quiz' = Quiz.participants quiz ++ [Participant.Id userId])
  ∧ participantCount code r.1 = Z.succ <$> participantCount code s
  ∧ reported_count r.2 = JNum <$> participantCount code r.1.
Proof.
  intros Hfind Hstatus Hnew r. subst r.
  rewrite (R2_join_found _ _ _ _ _ Hfind Hstatus).
  rewrite bool_decide_eq_false_2 by done. cbn [fst snd].
  set (quiz' := Quiz.set_participants _ quiz).
  assert (Quiz.findOne code (Quiz.save i quiz' s) = Some (i, quiz')) as Hfind'.
  { apply (findOne_save _ _ _ quiz); [done|]. by apply findOne_Some in Hfind as [_ <-]. }
  unfold participantCount. rewrite Hfind, Hfind'. split_and!; [done|by exists quiz'| |done].
  cbn. rewrite length_app. cbn. f_equal. lia.
Qed.

Lemma first_join_adds_one_participant_witness :
  let r := R2.join [waiting_quiz] "XYZ789" "u3" in
  res_status r.2 = 200
  ∧ (∃ quiz', Quiz.findOne "XYZ789" r.1 = Some (0%nat, quiz')
       ∧ Quiz.participants quiz' =
           Quiz.participants waiting_quiz ++ [Participant.Id "u3"])
  ∧ participantCount "XYZ789" r.1 = Z.succ <$> participantCount "XYZ789" [waiting_quiz]
  ∧ reported_count r.2 = JNum <$> participantCount "XYZ789" r.1.
Proof.
  apply (first_join_adds_one_participant [waiting_quiz] "XYZ789" "u3" 0%nat waiting_quiz);
    try done.
  intros Hin. apply list_elem_of_singleton in Hin. discriminate.
Defined.

(** X11.  [POST /start] on an existing quiz, in revision 1 with both
    fields present: it is answered 200 exactly when the caller names the
    stored creator, the quiz has a participant and, in revision 1 only, the
    quiz is not active yet; the quiz is then made active and nothing else
    of the collection changes, the start time apart.  Otherwise it is
    answered 403 when the caller is not the creator and 400 when he is,
    and the collection stays as it was. *)
Theorem start_succeeds_exactly_when :
  (∀ now s code creatorName i quiz,
     code ≠ "" → creatorName ≠ "" →
     Quiz.findOne code s = Some (i, quiz) →
     let r := R1.start now s (Some code) (Some creatorName) in
     if bool_decide (Quiz.creatorName quiz = Some creatorName
                     ∧ Quiz.status quiz ≠ "active"
                     ∧ Quiz.participants quiz ≠ [])
     then res_status r.2 = 200 ∧ started i quiz s r.1
     else res_status r.2
          = (if bool_decide (Quiz.creatorName quiz = Some creatorName) then 400 else 403)
          ∧ r.1 = s)
  ∧ (∀ now s code userId i quiz,
       Quiz.findOne code s = Some (i, quiz) →
       let r := R2.start now s code userId in
       if bool_decide (Quiz.createdBy quiz = userId ∧ Quiz.participants quiz ≠ [])
       then res_status r.2 = 200 ∧ started i quiz s r.1
       else res_status r.2
            = (if bool_decide (Quiz.createdBy quiz = userId) then 400 else 403)
            ∧ r.1 = s).
Proof.
  split.
  - intros now s code creatorName i quiz Hcode Hname Hfind r. subst r.
    unfold R1.start. rewrite !truthy_intro, Hfind by done.
    destruct (decide (Quiz.creatorName quiz = Some creatorName)) as [Hcreator|Hcreator].
    + rewrite (bool_decide_eq_false_2 (Quiz.creatorName quiz ≠ Some creatorName))
        by (by intros ?).
      rewrite (bool_decide_eq_true_2 (Quiz.creatorName quiz = Some creatorName)) by done.
      destruct (decide (Quiz.status quiz = "active")) as [Hactive|Hactive].
      * rewrite (bool_decide_eq_true_2 (Quiz.status quiz = "active")) by done.
        rewrite bool_decide_eq_false_2 by (by intros (_ & ? & _)). done.
      * rewrite (bool_decide_eq_false_2 (Quiz.status quiz = "active")) by done.
        destruct (Quiz.participants quiz) as [|p ps] eqn:Hp.
        -- rewrite bool_decide_eq_false_2 by (by intros (_ & _ & ?)). done.
        -- rewrite bool_decide_eq_true_2 by done.
           cbn [length]. destruct (Z.ltb_spec (Z.of_nat (S (length ps))) 1); [lia|].
           split; [done|]. eexists. split; [done|]. by split_and!.
    + rewrite (bool_decide_eq_true_2 (Quiz.creatorName quiz ≠ Some creatorName)) by done.
      rewrite (bool_decide_eq_false_2 (Quiz.creatorName quiz = Some creatorName)) by done.
      rewrite bool_decide_eq_false_2 by (by intros (? & _)). done.
  - intros now s code userId i quiz Hfind r. subst r.
    unfold R2.start. rewrite Hfind.
    destruct (decide (Quiz.createdBy quiz = userId)) as [Hcreator|Hcreator].
    + rewrite (bool_decide_eq_false_2 (Quiz.createdBy quiz ≠ userId)) by (by intros ?).
      rewrite (bool_decide_eq_true_2 (Quiz.createdBy quiz = userId)) by done.
      destruct (Quiz.participants quiz) as [|p ps] eqn:Hp.
      * rewrite bool_decide_eq_false_2 by (by intros (_ & ?)). done.
      * rewrite bool_decide_eq_true_2 by done.
        rewrite (bool_decide_eq_false_2 (length (p :: ps) = 0%nat)) by done.
        split; [done|]. eexists. split; [done|]. by split_and!.
    + rewrite (bool_decide_eq_true_2 (Quiz.createdBy quiz ≠ userId)) by done.
      rewrite (bool_decide_eq_false_2 (Quiz.createdBy quiz = userId)) by done.
      rewrite bool_decide_eq_false_2 by (by intros (? & _)). done.
Qed.

Lemma start_succeeds_exactly_when_witness :
  (let r := R1.start 5 [pending_quiz] (Some "ABC123") (Some "Alice") in
   res_status r.2 = 200 ∧ started 0 pending_quiz [pending_quiz] r.1)
  ∧ (let r := R2.start 5 [waiting_quiz] "XYZ789" (Some "u7") in
     res_status r.2 = 403 ∧ r.1 = [waiting_quiz]).
Proof.
  split.
  - apply (proj1 start_succeeds_exactly_when 5 [pending_quiz] "ABC123" "Alice" 0%nat
             pending_quiz); done.
  - apply (proj2 start_succeeds_exactly_when 5 [waiting_quiz] "XYZ789" (Some "u7") 0%nat
             waiting_quiz); done.
Defined.

(** ** Answers and scores, one after the other *)

Lemma submitAnswer_found now s code userId questionIndex answer i quiz question :
  Quiz.findOne code s = Some (i, quiz) →
  Quiz.status quiz = "active" →
  js_index (Quiz.questions quiz) questionIndex = Some question →
  let correct := bool_decide (Question.correctAnswer question = answer) in
  submitAnswer now s code userId questionIndex answer =
    (Quiz.save i
       (Quiz.set_answers
          (arr_or (Quiz.answers quiz)
           ++ [Answer.mk userId questionIndex answer correct now]) quiz) s,
     respond 200 (obj [("success", Some (JBool true));
                       ("correct", Some (JBool correct));
                       ("correctAnswer", jstr (Question.correctAnswer question))])).
Proof.
  intros Hfind Hactive Hq. unfold submitAnswer. rewrite Hfind, Hq.
  by rewrite bool_decide_eq_false_2 by (by intros ?).
Qed.

(** X12.  [POST /submit-answer] has no guard against a repeated answer:
    when the same user answers the same question of an active quiz a
    second time, the call is answered 200 again, with the same verdict and
    the same correct answer as the first. *)
Theorem repeated_answer_is_accepted_again
    now1 now2 s code userId questionIndex answer i quiz question :
  Quiz.findOne code s = Some (i, quiz) →
  Quiz.status quiz = "active" →
  js_index (Quiz.questions quiz) questionIndex = Some question →
  let r1 := submitAnswer now1 s code userId questionIndex answer in
  let r2 := submitAnswer now2 r1.1 code userId questionIndex answer in
  res_status r1.2 = 200
  ∧ res_status r2.2 = 200
  ∧ res_body r2.2 = res_body r1.2
  ∧ jfield "correct" (res_body r2.2)
    = Some (JBool (bool_decide (Question.correctAnswer question = answer)))
  ∧ jfield "correctAnswer" (res_body r2.2) = jstr (Question.correctAnswer question).
Proof.
  intros Hfind Hactive Hq r1 r2. subst r2 r1.
  rewrite (submitAnswer_found now1 _ _ _ _ _ _ _ _ Hfind Hactive Hq). cbn [fst snd].
  set (quiz1 := Quiz.set_answers _ quiz).
  assert (Quiz.findOne code (Quiz.save i quiz1 s) = Some (i, quiz1)) as Hfind1.
  { apply (findOne_save _ _ _ quiz); [done|]. by apply findOne_Some in Hfind as [_ <-]. }
  rewrite (submitAnswer_found now2 _ _ _ _ _ _ _ question Hfind1) by done. cbn [fst snd].
  split_and!; [done..|]. by destruct (Question.correctAnswer question).
Qed.

Lemma repeated_answer_is_accepted_again_witness :
  let r1 := submitAnswer 6 [active_quiz] "ABC123" (Some "u2") 0 (Some "B") in
  let r2 := submitAnswer 7 r1.1 "ABC123" (Some "u2") 0 (Some "B") in
  res_status r1.2 = 200
  ∧ res_status r2.2 = 200
  ∧ res_body r2.2 = res_body r1.2
  ∧ jfield "correct" (res_body r2.2)
    = Some (JBool (bool_decide (Question.correctAnswer Q1 = Some "B")))
  ∧ jfield "correctAnswer" (res_body r2.2) = jstr (Question.correctAnswer Q1).
Proof.
  apply (repeated_answer_is_accepted_again 6 7 [active_quiz] "ABC123" (Some "u2") 0
           (Some "B") 0%nat active_quiz Q1); reflexivity.
Defined.







(** ** Refusals *)

Ltac settle :=
  repeat case_match; cbn [fst snd res_status error error_s];
  first [ left; by repeat constructor | by right ].

(** X14.  A request that is not answered 200 or 201 leaves the
    collection as it was: every change of the collection is acknowledged
    with one of these two statuses. *)
Theorem refused_requests_change_nothing r s :
  res_status (handle r s).2 ∈ [200; 201] ∨ (handle r s).1 = s.
Proof.
  destruct r; cbn [handle].
  - unfold R1.create. settle.
  - unfold R1.get. settle.
  - unfold R1.admin. settle.
  - unfold R1.join, Quiz.findOneAndUpdate. settle.
  - unfold R1.start. settle.
  - unfold R2.create. settle.
  - unfold R2.get. settle.
  - unfold R2.admin. settle.
  - unfold R2.join. settle.
  - unfold R2.start. settle.
  - unfold submitAnswer. settle.
  - unfold listQuizzes. settle.
  - unfold submit. settle.
  - unfold leaderboard. settle.
Qed.

(** X15.  The requests that only read ([GET /:code], [GET /:code/admin],
    [GET /list], [GET /leaderboard/:code]) never change the collection;
    in particular the sort of the leaderboard is not stored. *)
Theorem reading_changes_nothing r s : read_only r = true → (handle r s).1 = s.
Proof.
  destruct r; try done; intros _; cbn [handle];
    unfold R1.get, R1.admin, R2.get, R2.admin, listQuizzes, leaderboard;
    by repeat case_match.
Qed.

Lemma reading_changes_nothing_witness :
  (handle (Leaderboard "ABC123") three_scores).1 = three_scores.
Proof. apply (reading_changes_nothing (Leaderboard "ABC123") three_scores). reflexivity. Defined.

(** X16.  A code that no stored quiz has is answered 404 by every route
    that takes a code, and nothing is stored; in revision 1 [POST /join]
    and [POST /start] do so once their fields are present. *)
Theorem unknown_code_is_not_found s code :
  Quiz.findOne code s = None → not_found_everywhere s code.
Proof.
  intros Hfind.
  unfold not_found_everywhere, R1.get, R1.admin, R2.admin, R1.join, R1.start, R2.get,
    R2.join, R2.start, submitAnswer, submit, leaderboard.
  rewrite Hfind. split_and!; intros; rewrite ?truthy_intro by done; by rewrite ?Hfind.
Qed.

Lemma unknown_code_is_not_found_witness : not_found_everywhere [pending_quiz] "NOSUCH".
Proof. apply (unknown_code_is_not_found [pending_quiz] "NOSUCH"). reflexivity. Defined.

(** ** Routing *)

(** X17.  No request reaches the handler of [GET /list]: the route
    [GET /:code], registered before it, matches every path of one segment,
    [/list] included, and answers it as a lookup of the code "list".  For
    the same reason [GET /leaderboard/admin] is answered by the admin
    route. *)
Theorem list_route_is_never_reached :
  (∀ m path params, dispatch m path ≠ Some (RList, params))
  ∧ (∀ seg, seg ≠ "" → dispatch GET [seg] = Some (RGet, [seg]))
  ∧ dispatch GET ["list"] = Some (RGet, ["list"])
  ∧ dispatch GET ["leaderboard"; "admin"] = Some (RAdmin, ["leaderboard"]).
Proof.
  split_and!; [|intros seg Hseg|done..].
  - intros m path params. unfold dispatch.
    destruct m, path as [|a [|b [|c path]]]; cbn; try done.
    all: repeat match goal with
         | |- context [String.eqb ?x ""] => destruct (String.eqb_spec x "") as [->|]; cbn
         end.
    all: repeat (case_match; try done).
    all: congruence.
  - unfold dispatch. cbn. by destruct (String.eqb_spec seg "").
Qed.

Lemma serve_invariant (P : Quiz.t → Prop) :
  (∀ q, created q → P q) →
  (∀ q q', P q → update q q' → P q') →
  ∀ rs s, Forall P s → Forall P (serve rs s).
Proof.
  intros Hcreated Hupdate rs. induction rs as [|r rs IH]; intros s Hs; [done|].
  rewrite serve_cons. apply IH.
  destruct (handle_effect r s) as [|new Hnew|i q q' Hi Hq]; [done| |].
  - apply Forall_app. split; [done|]. by apply Forall_singleton, Hcreated.
  - apply Forall_insert; [done|]. eapply Hupdate; [|done]. by eapply Forall_lookup_1.
Qed.

Lemma findOne_None_upper s code :
  Forall (λ q, toUpperCase (Quiz.code q) = Quiz.code q) s →
  toUpperCase code ≠ code →
  Quiz.findOne code s = None.
Proof.
  intros Hs Hcode. apply list_find_None. eapply Forall_impl; [done|].
  cbn. intros q Hq <-. done.
Qed.

(** X18.  The codes of a collection reached from the empty one are in
    upper case, so a lookup with a code that is not, such as "list" from
    the path [/list], is answered 404 by every route. *)
Theorem lower_case_code_is_not_found rs code :
  toUpperCase code ≠ code →
  Forall (λ q, toUpperCase (Quiz.code q) = Quiz.code q) (serve rs [])
  ∧ not_found_everywhere (serve rs []) code.
Proof.
  intros Hcode.
  assert (Forall (λ q, toUpperCase (Quiz.code q) = Quiz.code q) (serve rs [])) as Hs.
  { apply serve_invariant; [by intros q [? _]| |done].
    intros q q' Hq Hupdate. by rewrite (evolves_code _ _ (update_evolves _ _ Hupdate)). }
  split; [done|].
  pose proof (findOne_None_upper _ _ Hs Hcode) as Hfind.
  unfold not_found_everywhere, R1.get, R1.admin, R2.admin, R1.join, R1.start, R2.get,
    R2.join, R2.start, submitAnswer, submit, leaderboard.
  rewrite Hfind. split_and!; intros; rewrite ?truthy_intro by done; by rewrite ?Hfind.
Qed.

Lemma lower_case_code_is_not_found_witness :
  Forall (λ q, toUpperCase (Quiz.code q) = Quiz.code q) (serve opening [])
  ∧ not_found_everywhere (serve opening []) "list".
Proof. apply (lower_case_code_is_not_found opening "list"). done. Defined.

(** ** More on codes and questions *)

Lemma substring_take m l :
  String.substring 0 m (String.string_of_list_ascii l)
  = String.string_of_list_ascii (take m l).
Proof.
  revert m. induction l as [|c l IH]; intros [|m]; cbn; try done.
  by rewrite IH.
Qed.

Lemma toUpperCase_list l :
  String.list_ascii_of_string (toUpperCase (String.string_of_list_ascii l)) = upper <$> l.
Proof. induction l as [|c l IH]; [done|]. cbn. by rewrite IH. Qed.

Lemma string_of_list_length l :
  String.length (String.string_of_list_ascii l) = length l.
Proof. induction l as [|c l IH]; [done|]. cbn. by rewrite IH. Qed.

Lemma upper_base36 c : base36 c = true → alnum_upper (upper c) = true.
Proof. destruct c as [[] [] [] [] [] [] [] []]; done. Qed.

(** X19.  In revision 2, when [Math.random().toString(36)] reads "0."
    followed by digits of base 36, the code is made of the first six of
    these digits in upper case: it has six characters when there are six
    digits or more and as many as there are digits otherwise, all of them
    from A-Z, 0-9. *)
Theorem randomCode_of_digits digits :
  Forall (λ c, base36 c = true) digits →
  let code := randomCode ("0." +:+ String.string_of_list_ascii digits) in
  String.list_ascii_of_string code = upper <$> take 6 digits
  ∧ String.length code = (6 `min` length digits)%nat
  ∧ Forall (λ c, alnum_upper c = true) (String.list_ascii_of_string code).
Proof.
  intros Hdigits code. subst code. unfold randomCode, substring.
  change (String.substring 2 (8 - 2) ("0." +:+ String.string_of_list_ascii digits))
    with (String.substring 0 6 (String.string_of_list_ascii digits)).
  rewrite substring_take, toUpperCase_length, string_of_list_length, toUpperCase_list.
  split_and!; [done|by rewrite length_take|].
  apply Forall_fmap. eapply Forall_impl; [by apply Forall_take|].
  intros c. apply upper_base36.
Qed.

Lemma randomCode_of_digits_witness :
  let code := randomCode ("0." +:+ String.string_of_list_ascii ["i"%char]) in
  String.list_ascii_of_string code = upper <$> take 6 ["i"%char]
  ∧ String.length code = (6 `min` length ["i"%char])%nat
  ∧ Forall (λ c, alnum_upper c = true) (String.list_ascii_of_string code).
Proof. apply (randomCode_of_digits ["i"%char]). by repeat constructor. Defined.

(** X21.  In revision 1 every successful [POST /create] returns a code
    of exactly six characters from A-Z, 0-9, whatever doubles of [0, 1)
    [Math.random()] yields, the rounding of the product by 36 included. *)
Theorem create_code_has_six_characters
    random s title category questions createdBy creatorName :
  (∀ i, Double.wf (random i)) →
  let r := (R1.create random s title category questions createdBy creatorName).2 in
  res_status r = 201 →
  ∃ code,
    jfield "code" (res_body r) = Some (JStr code)
    ∧ String.length code = 6%nat
    ∧ Forall (λ c, alnum_upper c = true) (String.list_ascii_of_string code).
Proof.
  intros Hwf r Hok. subst r.
  destruct (R1_create_ok _ _ _ _ _ _ _ Hok) as (t & c & qs & cb & cn & Ht & Hc & -> & Hcb & Hcn & _).
  unfold R1.create. rewrite Ht, Hc, Hcb, Hcn. cbn [snd res_body].
  exists (generateUniqueCode random). split; [done|].
  by apply generateUniqueCode_join_code.
Qed.

Lemma create_code_has_six_characters_witness :
  ∃ code,
    jfield "code"
      (res_body (R1.create halves [] (Some "T") (Some "C") (Some [Q1]) (Some "u1")
                   (Some "Alice")).2) = Some (JStr code)
    ∧ String.length code = 6%nat
    ∧ Forall (λ c, alnum_upper c = true) (String.list_ascii_of_string code).
Proof.
  apply (create_code_has_six_characters halves [] (Some "T") (Some "C") (Some [Q1])
           (Some "u1") (Some "Alice")).
  - intros i. by vm_compute.
  - reflexivity.
Defined.
